(** * noxfile-template.py: configuration merge, version selection,
      test discovery and repository-root lookup

    A shallow embedding of [src/noxfile-template.py].  Python dictionaries
    are finite maps, the working tree is a tree of files and directories,
    and the nox session (pip, pytest) is an oracle that answers each tool
    invocation; a task is a computation that logs the tool invocations it
    makes and ends in a value or in a Python exception. *)

From Stdlib Require Import String Ascii ZArith Sorted.
From stdpp Require Import base option list gmap strings sorting.

Local Open Scope string_scope.
Local Open Scope list_scope.

(** ** Python values held by the configuration dictionary *)

(** The values that [TEST_CONFIG] and a [noxfile_config.py] hold: [None],
    booleans, strings, lists of strings and string-to-string dictionaries.
    Other Python values (numbers, say) are outside the embedding. *)
Inductive pyval : Type :=
  | VNone
  | VBool (b : bool)
  | VStr (s : string)
  | VList (l : list string)
  | VDict (d : gmap string string).

(** Python exceptions that the modelled code can raise. *)
Inductive exn : Type :=
  | KeyError (key : string)
  | TypeError
  | ValueError
  | UnboundLocalError (name : string)
  | IsADirectoryError (path : string)
  | CommandFailed
  | Exception (msg : string).

(** Truth value of a Python object, as tested by [if x:] and [bool(x)]. *)
Definition truthy (v : pyval) : bool :=
  match v with
  | VNone => false
  | VBool b => b
  | VStr s => negb (String.eqb s "")
  | VList l => match l with [] => false | _ => true end
  | VDict d => negb (bool_decide (d = ∅))
  end.

(** ** Dictionaries *)

(** [d.update(o)]: every item of [o] is assigned into [d], one by one. *)
Definition dict_update {V : Type} (d o : gmap string V) : gmap string V :=
  map_fold (fun k v acc => <[k := v]> acc) d o.

(** ** The configuration (lines 41-72) *)

Definition TEST_CONFIG_defaults : gmap string pyval :=
  <["ignored_versions" := VList ["2.7"; "3.7"; "3.8"; "3.10"; "3.11"; "3.12"]]>
  (<["enforce_type_hints" := VBool false]>
  (<["gcloud_project_env" := VStr "GOOGLE_CLOUD_PROJECT"]>
  (<["pip_version_override" := VNone]>
  (<["envs" := VDict ∅]> ∅)))).

(** [from noxfile_config import TEST_CONFIG_OVERRIDE]: [None] stands for the
    [ImportError] of a directory without a usable [noxfile_config.py], which
    the [except] clause turns into the empty dictionary. *)
Definition TEST_CONFIG_OVERRIDE (imported : option (gmap string pyval))
  : gmap string pyval :=
  match imported with
  | Some o => o
  | None => ∅
  end.

(** The configuration after line 72. *)
Definition TEST_CONFIG (imported : option (gmap string pyval))
  : gmap string pyval :=
  dict_update TEST_CONFIG_defaults (TEST_CONFIG_OVERRIDE imported).

(** The five keys of the default dictionary. *)
Definition recognized_keys : gset string :=
  {[ "ignored_versions"; "enforce_type_hints"; "gcloud_project_env";
     "pip_version_override"; "envs" ]}.

(** ** Results and strings *)

(** A Python expression evaluates to a value or raises. *)
Inductive result (A : Type) : Type :=
  | Ok (a : A)
  | Raise (e : exn).
Arguments Ok {A} a.
Arguments Raise {A} e.

Definition rbind {A B : Type} (r : result A) (k : A -> result B) : result B :=
  match r with
  | Ok a => k a
  | Raise e => Raise e
  end.

Notation "x <-? r ; k" := (rbind r (fun x => k))
  (at level 100, r at next level, right associativity).

(** [d[key]] on a dictionary. *)
Definition getitem {V : Type} (d : gmap string V) (key : string) : result V :=
  match d !! key with
  | Some v => Ok v
  | None => Raise (KeyError key)
  end.

(** [needle in hay] on two strings: [needle] occurs in [hay] as a
    contiguous substring. *)
Fixpoint str_contains (needle hay : string) : bool :=
  String.prefix needle hay ||
  match hay with
  | EmptyString => false
  | String _ hay' => str_contains needle hay'
  end.

(** [x in c] for a string [x] and a configuration value [c]. *)
Definition py_in (x : string) (c : pyval) : result bool :=
  match c with
  | VList l => Ok (bool_decide (x ∈ l))
  | VStr s => Ok (str_contains x s)
  | VDict d => Ok (bool_decide (is_Some (d !! x)))
  | VNone | VBool _ => Raise TypeError
  end.

(** Python orders strings lexicographically by code point. *)
Definition str_le (a b : string) : Prop := String.leb a b = true.

#[global] Instance str_le_dec : RelDecision str_le.
Proof. intros a b. unfold str_le. apply _. Defined.

(** [sorted(l)] on a list of strings. *)
Definition sorted (l : list string) : list string := merge_sort str_le l.

(** ** Tested versions (lines 91-96) *)

Definition ALL_VERSIONS : list string :=
  ["2.7"; "3.8"; "3.9"; "3.10"; "3.11"; "3.12"; "3.13"].

(** [[v for v in vs if v not in ignored]] *)
Fixpoint not_ignored (ignored : pyval) (vs : list string)
  : result (list string) :=
  match vs with
  | [] => Ok []
  | v :: vs' =>
      b <-? py_in v ignored ;
      rest <-? not_ignored ignored vs' ;
      Ok (if b then rest else v :: rest)
  end.

Definition IGNORED_VERSIONS (config : gmap string pyval) : result pyval :=
  getitem config "ignored_versions".

Definition TESTED_VERSIONS (config : gmap string pyval)
  : result (list string) :=
  ignored <-? IGNORED_VERSIONS config ;
  kept <-? not_ignored ignored ALL_VERSIONS ;
  Ok (sorted kept).

(** Lines 100-103. *)
Definition LINTING_VERSION (config : gmap string pyval) : result string :=
  tested <-? TESTED_VERSIONS config ;
  Ok (match tested with
      | [] => "3.10"
      | v :: _ => v
      end).

(** ** The file system and the process environment *)

(** A file with its text, or a directory with its entries. *)
#[warnings="-register-all"]
Inductive node : Type :=
  | File (content : string)
  | Dir (entries : list (string * node)).

Fixpoint find_entry (name : string) (es : list (string * node))
  : option node :=
  match es with
  | [] => None
  | (n, x) :: es' => if String.eqb n name then Some x else find_entry name es'
  end.

(** The node reached from [n] along the path components [p]. *)
Fixpoint lookup_path (n : node) (p : list string) : option node :=
  match p with
  | [] => Some n
  | c :: p' =>
      match n with
      | Dir es =>
          match find_entry c es with
          | Some n' => lookup_path n' p'
          | None => None
          end
      | File _ => None
      end
  end.

(** What the module and its tasks read from outside: the file system below
    [/], the working directory (as the components of its absolute path),
    [os.environ], and the [TEST_CONFIG_OVERRIDE] of [noxfile_config.py] when
    that import succeeds. *)
Record World : Type := {
  root : node;
  cwd : list string;
  environ : gmap string string;
  noxfile_config : option (gmap string pyval)
}.

(** The node named by a path relative to the working directory. *)
Definition stat (w : World) (rel : list string) : option node :=
  lookup_path (root w) (cwd w ++ rel).

(** [os.path.exists(name)] and [os.path.lexists(name)]; the model has no
    symbolic links, so the two agree. *)
Definition path_exists (w : World) (rel : list string) : bool :=
  match stat w rel with
  | Some _ => true
  | None => false
  end.

(** [os.path.isdir(name)] *)
Definition isdir (w : World) (rel : list string) : bool :=
  match stat w rel with
  | Some (Dir _) => true
  | _ => false
  end.

(** [os.listdir(dir)] *)
Definition listdir (w : World) (rel : list string) : result (list string) :=
  match stat w rel with
  | Some (Dir es) => Ok (es.*1)
  | Some (File _) => Raise (Exception "NotADirectoryError")
  | None => Raise (Exception "FileNotFoundError")
  end.

(** [open(name).read()] split in its two steps: opening the file raises on
    a directory or a missing file; reading returns the text. *)
Definition open_file (w : World) (name : string) : result string :=
  match stat w [name] with
  | Some (File content) => Ok content
  | Some (Dir _) => Raise (IsADirectoryError name)
  | None => Raise (Exception "FileNotFoundError")
  end.

(** [os.environ[key]]; a key that is not a string is a [TypeError]. *)
Definition environ_getitem (w : World) (key : pyval) : result string :=
  match key with
  | VStr k =>
      match environ w !! k with
      | Some v => Ok v
      | None => Raise (KeyError k)
      end
  | _ => Raise TypeError
  end.

(** ** [get_pytest_env_vars] (lines 75-87) *)

(** One element of a sequence given to [dict.update]: it has to be a
    sequence of length two; a two-character string is one.  Text is taken
    to be ASCII, one byte to the character. *)
Definition pair_of_item (s : string) : result (string * string) :=
  match s with
  | String a (String b EmptyString) =>
      Ok (String a EmptyString, String b EmptyString)
  | _ => Raise ValueError
  end.

Fixpoint update_from_items (ret : gmap string string) (items : list string)
  : result (gmap string string) :=
  match items with
  | [] => Ok ret
  | s :: items' =>
      kv <-? pair_of_item s ;
      update_from_items (<[kv.1 := kv.2]> ret) items'
  end.

(** [ret.update(other)] for a configuration value [other]. *)
Definition update_from (ret : gmap string string) (other : pyval)
  : result (gmap string string) :=
  match other with
  | VDict d => Ok (dict_update ret d)
  | VList l => update_from_items ret l
  | VStr s => update_from_items ret ((fun a => String a EmptyString) <$> list_ascii_of_string s)
  | VNone | VBool _ => Raise TypeError
  end.

Definition get_pytest_env_vars (w : World) : result (gmap string string) :=
  let ret : gmap string string := ∅ in
  env_key <-? getitem (TEST_CONFIG (noxfile_config w)) "gcloud_project_env" ;
  project <-? environ_getitem w env_key ;
  let ret := <["GOOGLE_CLOUD_PROJECT" := project]> ret in
  project <-? environ_getitem w env_key ;
  let ret := <["GCLOUD_PROJECT" := project]> ret in
  envs <-? getitem (TEST_CONFIG (noxfile_config w)) "envs" ;
  update_from ret envs.

(** Line 98. *)
Definition INSTALL_LIBRARY_FROM_SOURCE (w : World) : bool :=
  match environ w !! "INSTALL_LIBRARY_FROM_SOURCE" with
  | Some v => truthy (VStr v)
  | None => false
  end.

(** ** [os.path.splitext] and [_determine_local_import_names]
       (lines 113-126) *)

(** Index of the last occurrence of a character. *)
Fixpoint rfind (c : ascii) (s : string) : option nat :=
  match s with
  | EmptyString => None
  | String a s' =>
      match rfind c s' with
      | Some i => Some (S i)
      | None => if Ascii.eqb a c then Some 0 else None
      end
  end.

(** [os.path.splitext]: the extension starts at the last dot of the last
    path component, unless only dots precede it there. *)
Definition splitext (p : string) : string * string :=
  let filenameIndex := match rfind "/" p with Some i => S i | None => 0 end in
  match rfind "." p with
  | Some dotIndex =>
      if existsb (fun a => negb (Ascii.eqb a "."))
           (list_ascii_of_string
              (String.substring filenameIndex (dotIndex - filenameIndex) p))
      then (String.substring 0 dotIndex p,
            String.substring dotIndex (String.length p - dotIndex) p)
      else (p, "")
  | None => (p, "")
  end.

(** [os.path.join(start_dir, basename)] for a name without separator. *)
Definition join (start_dir : list string) (name : string) : list string :=
  start_dir ++ [name].

Definition _determine_local_import_names (w : World) (start_dir : list string)
  : result (list string) :=
  names <-? listdir w start_dir ;
  let file_ext_pairs := splitext <$> names in
  Ok (fst <$>
        List.filter
          (fun '(basename, extension) =>
             String.eqb extension ".py"
             || isdir w (join start_dir basename)
                && negb (str_contains basename "__pycache__"))
          file_ext_pairs).

(** ** [_get_repo_root] (lines 280-291) *)

(** [p.parent]; the parent of the root is the root. *)
Definition parent (p : list string) : list string := removelast p.

(** [str(p)] for an absolute path. *)
Definition path_str (p : list string) : string :=
  "/" +:+ String.concat "/" p.

(** [Path(p / ".git").exists()], for an absolute [p], in a file system
    whose directories can all be searched: the test answers and does not
    raise. *)
Definition has_git (w : World) (p : list string) : bool :=
  match lookup_path (root w) (p ++ [".git"]) with
  | Some _ => true
  | None => false
  end.

(** The [for] loop with [n] iterations left.  A [Path] is never [None], so
    the [break] of line 287 is never taken. *)
Fixpoint repo_root_loop (w : World) (n : nat) (p : list string)
  : result string :=
  match n with
  | 0 => Raise (Exception "Unable to detect repository root.")
  | S n' =>
      if has_git w p then Ok (path_str p)
      else repo_root_loop w n' (parent p)
  end.

Definition _get_repo_root (w : World) : result string :=
  repo_root_loop w 10 (cwd w).

(** ** [glob.glob] in the working directory *)

(** [fnmatch] for a pattern made of literal characters, [?] and [*]; the
    patterns of this file have no bracket sets. *)
Fixpoint fnmatch (pat name : string) : bool :=
  match pat with
  | EmptyString =>
      match name with
      | EmptyString => true
      | String _ _ => false
      end
  | String c pat' =>
      if Ascii.eqb c "*" then
        (fix star (n : string) : bool :=
           fnmatch pat' n ||
           match n with
           | EmptyString => false
           | String _ n' => star n'
           end) name
      else
        match name with
        | EmptyString => false
        | String d name' =>
            (Ascii.eqb c "?" || Ascii.eqb c d) && fnmatch pat' name'
        end
  end.

Definition has_magic (pat : string) : bool :=
  existsb (fun a => Ascii.eqb a "*" || Ascii.eqb a "?" || Ascii.eqb a "[")
    (list_ascii_of_string pat).

Definition ishidden (name : string) : bool := String.prefix "." name.

(** The entries of the working directory. *)
Definition listing (w : World) : list (string * node) :=
  match stat w [] with
  | Some (Dir es) => es
  | _ => []
  end.

(** [glob.glob(pat)] for a one-component pattern: a pattern with wildcards
    filters the names of the directory, leaving out the hidden ones unless
    the pattern itself starts with a dot; a literal pattern is returned when
    something of that name exists. *)
Definition glob (w : World) (pat : string) : list string :=
  if has_magic pat then
    List.filter
      (fun name => (ishidden pat || negb (ishidden name)) && fnmatch pat name)
      (listing w).*1
  else if path_exists w [pat] then [pat] else [].

(** ** The nox session *)

(** What a session does to the outside. *)
Inductive event : Type :=
  | Print (msg : string)
  | Install (args : list string)
  | Run (cmd : string) (args : list string) (success_codes : list Z)
        (env : gmap string string).

(** A nox session: the positional arguments of the command line, whether a
    given [pip install] fails, and the exit status of a given command. *)
Record Session : Type := {
  posargs : list string;
  install_fails : list string -> bool;
  exit_status : string -> list string -> Z
}.

(** A task logs events and ends in a value or an exception. *)
Definition task (A : Type) : Type := list event * result A.

Definition tret {A : Type} (a : A) : task A := ([], Ok a).

Definition tbind {A B : Type} (t : task A) (k : A -> task B) : task B :=
  match t with
  | (log, Ok a) => let '(log', r) := k a in (log ++ log', r)
  | (log, Raise e) => (log, Raise e)
  end.

Definition lift {A : Type} (r : result A) : task A := ([], r).

Notation "x <- t ;; k" := (tbind t (fun x => k))
  (at level 100, t at next level, right associativity).
Notation "t ;; k" := (tbind t (fun _ => k))
  (at level 100, right associativity).

Definition trace {A : Type} (t : task A) : list event := t.1.
Definition outcome {A : Type} (t : task A) : result A := t.2.

Definition print (msg : string) : task unit := ([Print msg], Ok tt).

(** [session.install] with its arguments: nox runs pip and raises [CommandFailed] when
    pip fails. *)
Definition session_install (session : Session) (args : list string)
  : task unit :=
  ([Install args],
   if install_fails session args then Raise CommandFailed else Ok tt).

(** [session.run] with [success_codes] and [env]: nox runs the
    command and raises [CommandFailed] unless its exit status is one of
    [success_codes]. *)
Definition session_run (session : Session) (cmd : string) (args : list string)
    (success_codes : list Z) (env : gmap string string) : task unit :=
  ([Run cmd args success_codes env],
   if bool_decide (exit_status session cmd args ∈ success_codes)
   then Ok tt else Raise CommandFailed).

(** ** [_session_tests] (lines 188-261) *)

Definition PYTEST_COMMON_ARGS : list string := ["--junitxml=sponge_log.xml"].

(** Reading a local variable: unbound, it raises [UnboundLocalError]. *)
Definition load_fast (name : string) (v : option string) : result string :=
  match v with
  | Some s => Ok s
  | None => Raise (UnboundLocalError name)
  end.

(** Lines 195-196: the names found by the three patterns. *)
Definition test_list (w : World) : list string :=
  (glob w "*_test.py" ++ glob w "test_*.py") ++ glob w "tests".

Section SessionTests.

(** Python's [str()] of a configuration value, which the f-string of line
    204 applies to the pinned pip version. *)
Variable str_of : pyval -> string.

(** Lines 202-251 and the arguments of the call of line 253: everything
    the task does between finding tests and starting the test runner,
    ending in the runner's arguments and environment. *)
Definition session_tests_setup (w : World) (session : Session)
    (post_install : option (Session -> task unit))
  : task (list string * gmap string string) :=
  pip_version <-
    lift (getitem (TEST_CONFIG (noxfile_config w)) "pip_version_override") ;;
  (if truthy pip_version
   then session_install session ["pip==" +:+ str_of pip_version]
   else session_install session ["--upgrade"; "pip"]) ;;
  let concurrent_args : list string := [] in
  packages <-
    (if path_exists w ["requirements.txt"] then
       text <- lift (open_file w "requirements.txt") ;;
       (if path_exists w ["constraints.txt"] then
          session_install session
            ["-r"; "requirements.txt"; "-c"; "constraints.txt";
             "--only-binary"; ":all"]
        else if str_contains "pyspark" text then
          session_install session
            ["-r"; "requirements.txt"; "--use-pep517"]
        else
          session_install session
            ["-r"; "requirements.txt"; "--only-binary"; ":all"]) ;;
       tret (Some text)
     else tret None) ;;
  packages <-
    (if path_exists w ["requirements-test.txt"] then
       text <- lift (open_file w "requirements-test.txt") ;;
       old <- lift (load_fast "packages" packages) ;;
       (if path_exists w ["constraints-test.txt"] then
          session_install session
            ["-r"; "requirements-test.txt"; "-c"; "constraints-test.txt";
             "--only-binary"; ":all"]
        else
          session_install session
            ["-r"; "requirements-test.txt"; "--only-binary"; ":all"]) ;;
       tret (Some (old +:+ text))
     else tret packages) ;;
  (if INSTALL_LIBRARY_FROM_SOURCE w then
     repo_root <- lift (_get_repo_root w) ;;
     session_install session ["-e"; repo_root]
   else tret tt) ;;
  (match post_install with
   | Some hook => hook session
   | None => tret tt
   end) ;;
  text <- lift (load_fast "packages" packages) ;;
  let concurrent_args :=
    if str_contains "pytest-parallel" text then
      concurrent_args ++ ["--workers"; "auto"; "--tests-per-worker"; "auto"]
    else if str_contains "pytest-xdist" text then
      concurrent_args ++ ["-n"; "auto"]
    else concurrent_args in
  env <- lift (get_pytest_env_vars w) ;;
  tret (PYTEST_COMMON_ARGS ++ posargs session ++ concurrent_args, env).

Definition _session_tests (w : World) (session : Session)
    (post_install : option (Session -> task unit)) : task unit :=
  if Nat.eqb (length (test_list w)) 0 then
    print "No tests found, skipping directory."
  else
    call <- session_tests_setup w session post_install ;;
    session_run session "pytest" call.1 [0; 5]%Z call.2.

End SessionTests.

(** The test task found tests: it went past the check of line 198. *)
Definition tests_present (w : World) : bool :=
  negb (Nat.eqb (length (test_list w)) 0).

(** Tool invocations among the events of a task. *)
Definition is_install (e : event) : bool :=
  match e with
  | Install _ => true
  | _ => false
  end.

Definition is_run (e : event) : bool :=
  match e with
  | Run _ _ _ _ => true
  | _ => false
  end.

(** ** Readings of the specification, as predicates on a world *)

(** The [i]-th ancestor of a directory; the directory itself for [i = 0]. *)
Definition ancestor (i : nat) (p : list string) : list string :=
  Nat.iter i parent p.

(** The directory [p] holds a directory named [.git]. *)
Definition has_git_dir (w : World) (p : list string) : bool :=
  match lookup_path (root w) (p ++ [".git"]) with
  | Some (Dir _) => true
  | _ => false
  end.

(** The repository-root lookup read with [.git] as a marker directory: the
    first of the ten levels that holds a directory [.git] is returned, and
    the lookup raises when none of them does. *)
Definition repo_root_by_git_directory (w : World) : Prop :=
  (forall i, i < 10 ->
     has_git_dir w (ancestor i (cwd w)) = true ->
     (forall j, j < i -> has_git_dir w (ancestor j (cwd w)) = false) ->
     _get_repo_root w = Ok (path_str (ancestor i (cwd w)))) /\
  ((forall i, i < 10 -> has_git_dir w (ancestor i (cwd w)) = false) ->
   _get_repo_root w = Raise (Exception "Unable to detect repository root.")).

(** The value of a decimal digit. *)
Definition digit (a : ascii) : option nat :=
  let n := nat_of_ascii a in
  if Nat.leb 48 n && Nat.leb n 57 then Some (n - 48) else None.

(** The numbers between the dots of a version: "3.10" is [3; 10]. *)
Fixpoint version_components (s : string) (current : nat) : list nat :=
  match s with
  | EmptyString => [current]
  | String a s' =>
      if Ascii.eqb a "." then current :: version_components s' 0
      else
        match digit a with
        | Some d => version_components s' (10 * current + d)
        | None => version_components s' current
        end
  end.

Fixpoint components_ltb (a b : list nat) : bool :=
  match a, b with
  | [], [] => false
  | [], _ :: _ => true
  | _ :: _, [] => false
  | x :: a', y :: b' =>
      Nat.ltb x y || (Nat.eqb x y && components_ltb a' b')
  end.

(** [a] is an older version than [b]: its numbers come first. *)
Definition older (a b : string) : bool :=
  components_ltb (version_components a 0) (version_components b 0).

(** A name matched by [glob.glob] for a wildcard pattern that does not
    start with a dot. *)
Definition glob_match (pat name : string) : bool :=
  negb (ishidden name) && fnmatch pat name.

Definition is_file (n : node) : bool :=
  match n with
  | File _ => true
  | Dir _ => false
  end.

Definition is_dir (n : node) : bool :=
  match n with
  | File _ => false
  | Dir _ => true
  end.

(** The naming convention with the kinds of entry it speaks of: a file
    matching one of the two patterns, or a directory named [tests]. *)
Definition test_entry_by_kind (name : string) (n : node) : bool :=
  is_file n && (glob_match "*_test.py" name || glob_match "test_*.py" name)
  || is_dir n && String.eqb name "tests".

(** Some entry of the working directory is a test by name and kind. *)
Definition tests_expected_by_kind (w : World) : Prop :=
  exists name n, (name, n) ∈ listing w /\ test_entry_by_kind name n = true.

(** The same convention on names alone. *)
Definition test_entry_name (name : string) : bool :=
  glob_match "*_test.py" name || glob_match "test_*.py" name
  || String.eqb name "tests".

(** The names that are "local" by the description of the linter set-up:
    the basename of every Python file and every subdirectory other than
    [__pycache__]. *)
Definition local_name_by_description (es : list (string * node))
    (name : string) : Prop :=
  (exists content, (name +:+ ".py", File content) ∈ es) \/
  (exists sub, (name, Dir sub) ∈ es /\ name <> "__pycache__").

(** ** Sample worlds *)

(** A sample directory [/repo/samples] of a checked-out repository, with a
    test file and its requirements. *)
Definition sample_root : node :=
  Dir [("repo",
        Dir [(".git", Dir []);
             ("samples",
              Dir [("main.py", File "print(1)");
                   ("main_test.py", File "def test_main(): pass");
                   ("requirements.txt", File "pytest-xdist==3.5.0")])])].

Definition sample_world : World :=
  {| root := sample_root;
     cwd := ["repo"; "samples"];
     environ := <["GOOGLE_CLOUD_PROJECT" := "my-project"]> ∅;
     noxfile_config := None |}.

(** The same directory in a process without [GOOGLE_CLOUD_PROJECT]. *)
Definition world_without_project : World :=
  {| root := sample_root;
     cwd := ["repo"; "samples"];
     environ := ∅;
     noxfile_config := None |}.

(** A session in which every installation succeeds and every command exits
    with the given status. *)
Definition session_exiting (status : Z) : Session :=
  {| posargs := [];
     install_fails := fun _ => false;
     exit_status := fun _ _ => status |}.

(** A linked working tree [/repo/wt] of the repository in [/repo]: its
    [.git] is a file that points to the repository. *)
Definition worktree_world : World :=
  {| root :=
       Dir [("repo",
             Dir [(".git", Dir []);
                  ("wt", Dir [(".git", File "gitdir: /repo/.git/worktrees/wt")])])];
     cwd := ["repo"; "wt"];
     environ := ∅;
     noxfile_config := None |}.

(** A working directory ten levels below the root of the file system;
    the root holds the only [.git]. *)
Definition deep_world : World :=
  {| root :=
       Dir [(".git", Dir []);
            ("1", Dir [("2", Dir [("3", Dir [("4", Dir [("5", Dir [("6",
             Dir [("7", Dir [("8", Dir [("9", Dir [("10", Dir [])])])])])])])])])])];
     cwd := ["1"; "2"; "3"; "4"; "5"; "6"; "7"; "8"; "9"; "10"];
     environ := ∅;
     noxfile_config := None |}.

(** A directory whose only entry is a regular file named [tests]. *)
Definition tests_file_world : World :=
  {| root := Dir [("work", Dir [("tests", File "notes")])];
     cwd := ["work"];
     environ := ∅;
     noxfile_config := None |}.

(** A directory without anything named like a test. *)
Definition no_tests_world : World :=
  {| root := Dir [("work", Dir [("main.py", File "print(1)");
                                ("requirements.txt", File "flask");
                                (".hidden_test.py", File "")])];
     cwd := ["work"];
     environ := ∅;
     noxfile_config := None |}.

(** A directory with a test file and no [requirements.txt]. *)
Definition bare_tests_world : World :=
  {| root := Dir [("work", Dir [("main_test.py", File "def test_main(): pass")])];
     cwd := ["work"];
     environ := <["GOOGLE_CLOUD_PROJECT" := "my-project"]> ∅;
     noxfile_config := None |}.

(** The same with test requirements only. *)
Definition test_requirements_world : World :=
  {| root := Dir [("work", Dir [("main_test.py", File "def test_main(): pass");
                                ("requirements-test.txt", File "pytest==8.2.0")])];
     cwd := ["work"];
     environ := <["GOOGLE_CLOUD_PROJECT" := "my-project"]> ∅;
     noxfile_config := None |}.

(** A sample directory with a package [utils], a data directory [cache]
    and the interpreter's [__pycache__]. *)
Definition cache_dir_world : World :=
  {| root := Dir [("work", Dir [("main.py", File "import utils");
                                ("utils", Dir [("__init__.py", File "")]);
                                ("cache", Dir []);
                                ("__pycache__", Dir [])])];
     cwd := ["work"];
     environ := ∅;
     noxfile_config := None |}.

(** ** The other sessions: [lint], [blacken], [py], [readmegen] *)

(** Lines 143-151. *)
Definition FLAKE8_COMMON_ARGS : list string :=
  ["--show-source";
   "--builtin=gettext";
   "--max-complexity=20";
   "--import-order-style=google";
   "--exclude=.nox,.cache,env,lib,generated_pb2,*_pb2.py,*_pb2_grpc.py";
   "--ignore=ANN101,ANN102,E121,E123,E126,E203,E226,E24,E266,E501,E704,W503,W504,I202";
   "--max-line-length=88"].

(** [session.run] called without [success_codes] and [env]: only the exit
    status 0 is a success, and no variable is added to the environment. *)
Definition session_run_default (session : Session) (cmd : string)
    (args : list string) : task unit :=
  session_run session cmd args [0%Z] ∅.

(** Lines 154-167. *)
Definition lint (w : World) (session : Session) : task unit :=
  enforce <-
    lift (getitem (TEST_CONFIG (noxfile_config w)) "enforce_type_hints") ;;
  (if negb (truthy enforce)
   then session_install session ["flake8"; "flake8-import-order"]
   else session_install session
          ["flake8"; "flake8-import-order"; "flake8-annotations"]) ;;
  local_names <- lift (_determine_local_import_names w []) ;;
  let args :=
    FLAKE8_COMMON_ARGS ++
    ["--application-import-names"; String.concat "," local_names; "."] in
  session_run_default session "flake8" args.

(** [s.endswith(suffix)]: some tail of [s] is [suffix]. *)
Fixpoint str_endswith (suffix s : string) : bool :=
  String.eqb s suffix ||
  match s with
  | EmptyString => false
  | String _ s' => str_endswith suffix s'
  end.

(** Lines 175-180. *)
Definition blacken (w : World) (session : Session) : task unit :=
  session_install session ["black"] ;;
  names <- lift (listdir w []) ;;
  let python_files := List.filter (str_endswith ".py") names in
  session_run_default session "black" python_files.

(** What the [py] session of one interpreter comes to: it is skipped with a
    message ([session.skip]), or it runs the test task. *)
Inductive py_result : Type :=
  | Skipped (msg : string)
  | Tested (t : task unit).

(** Lines 264-272, for the interpreter version [python] of the session.
    [TESTED_VERSIONS] is computed when the module is loaded; the error of
    that computation is the error of loading the module. *)
Definition py (str_of : pyval -> string) (w : World) (session : Session)
    (python : string) : result py_result :=
  tested <-? TESTED_VERSIONS (TEST_CONFIG (noxfile_config w)) ;
  Ok (if bool_decide (python ∈ tested)
      then Tested (_session_tests str_of w session None)
      else Skipped ("SKIPPED: " +:+ python +:+
                    " tests are disabled for this sample.")).

(** [os.path.dirname] of a relative path given by its components. *)
Definition dirname (path : list string) : list string := removelast path.

(** The text of a relative path; the empty path is the empty text, as
    [os.path.join] of an empty directory name leaves the file name alone. *)
Definition rel_str (path : list string) : string := String.concat "/" path.

(** Lines 297-310, for one template [path] below the working directory. *)
Definition readmegen (w : World) (session : Session) (path : list string)
  : task unit :=
  session_install session ["jinja2"; "pyyaml"] ;;
  let dir_ := dirname path in
  (if path_exists w (dir_ ++ ["requirements.txt"])
   then session_install session ["-r"; rel_str (dir_ ++ ["requirements.txt"])]
   else tret tt) ;;
  let in_file := rel_str (dir_ ++ ["README.rst.in"]) in
  repo_root <- lift (_get_repo_root w) ;;
  session_run_default session "python"
    [repo_root +:+ "/scripts/readme-gen/readme_gen.py"; in_file].

(** Lines 248-251: the flags for the parallel-test plugin named in the
    text of the requirements. *)
Definition concurrent_flags (packages : string) : list string :=
  if str_contains "pytest-parallel" packages then
    ["--workers"; "auto"; "--tests-per-worker"; "auto"]
  else if str_contains "pytest-xdist" packages then ["-n"; "auto"]
  else [].

(** The text of a file of the working directory, empty when there is no
    such file. *)
Definition file_text (w : World) (name : string) : string :=
  match stat w [name] with
  | Some (File text) => text
  | _ => ""
  end.

(** A sample whose template sits in a subdirectory with its own
    requirements. *)
Definition readme_world : World :=
  {| root :=
       Dir [("repo",
             Dir [(".git", Dir []);
                  ("storage",
                   Dir [("api", Dir [("README.rst.in", File "product: storage");
                                     ("requirements.txt", File "google-cloud-storage")])])])];
     cwd := ["repo"; "storage"];
     environ := ∅;
     noxfile_config := None |}.

(** A sample with pyspark among its requirements. *)
Definition pyspark_world : World :=
  {| root := Dir [("work", Dir [("job_test.py", File "def test_job(): pass");
                                ("requirements.txt", File "pyspark==3.5.0")])];
     cwd := ["work"];
     environ := <["GOOGLE_CLOUD_PROJECT" := "my-project"]> ∅;
     noxfile_config := None |}.

(** * Verification *)

(** ** Facts about [dict_update] *)

Lemma dict_update_union {V : Type} (d o : gmap string V) :
  dict_update d o = o ∪ d.
Proof.
  unfold dict_update.
  induction o as [|k v o Hk Hfold IH] using map_first_key_ind.
  - rewrite map_fold_empty. by rewrite (left_id_L ∅ (∪)).
  - rewrite map_fold_insert_first_key by done.
    rewrite IH. by rewrite insert_union_l.
Qed.

Lemma dict_update_lookup {V : Type} (d o : gmap string V) (k : string) :
  dict_update d o !! k =
    match o !! k with
    | Some v => Some v
    | None => d !! k
    end.
Proof.
  rewrite dict_update_union, lookup_union.
  destruct (o !! k), (d !! k); reflexivity.
Qed.

Lemma dict_update_empty {V : Type} (d : gmap string V) : dict_update d ∅ = d.
Proof. unfold dict_update. apply map_fold_empty. Qed.

Lemma dict_update_dom {V : Type} (d o : gmap string V) :
  dom (dict_update d o) = dom o ∪ dom d.
Proof. rewrite dict_update_union. apply dom_union_L. Qed.

Lemma defaults_dom : dom TEST_CONFIG_defaults = recognized_keys.
Proof.
  unfold TEST_CONFIG_defaults, recognized_keys.
  rewrite !dom_insert_L, dom_empty_L. set_solver.
Qed.

(** ** The order of strings *)

Lemma ascii_compare_N (a b : ascii) :
  Ascii.compare a b = N.compare (N_of_ascii a) (N_of_ascii b).
Proof. reflexivity. Qed.

Lemma ascii_compare_eq (a b : ascii) : Ascii.compare a b = Eq -> a = b.
Proof.
  rewrite ascii_compare_N, N.compare_eq_iff. intros H.
  rewrite <- (ascii_N_embedding a), <- (ascii_N_embedding b). by rewrite H.
Qed.

Lemma ascii_compare_refl (a : ascii) : Ascii.compare a a = Eq.
Proof. rewrite ascii_compare_N. apply N.compare_refl. Qed.

Lemma str_le_cons (a b : ascii) (s t : string) :
  str_le (String a s) (String b t) <->
  Ascii.compare a b = Lt \/ (a = b /\ str_le s t).
Proof.
  unfold str_le, String.leb. simpl.
  destruct (Ascii.compare a b) eqn:Hab.
  - apply ascii_compare_eq in Hab as ->. split; [by right | by intros [? | [_ ?]]].
  - split; [by left | done].
  - split; [done |]. intros [? | [-> _]]; [done |].
    by rewrite ascii_compare_refl in Hab.
Qed.

Lemma str_le_nil_l (s : string) : str_le EmptyString s.
Proof. by destruct s. Qed.

Lemma str_le_nil_r (s : string) : str_le s EmptyString -> s = EmptyString.
Proof. by destruct s. Qed.

#[global] Instance str_le_total : Total str_le.
Proof. intros a b. apply String.leb_total. Qed.

#[global] Instance str_le_trans : Transitive str_le.
Proof.
  intros a. induction a as [|x a IH]; intros b c Hab Hbc.
  - apply str_le_nil_l.
  - destruct b as [|y b]; [by apply str_le_nil_r in Hab |].
    destruct c as [|z c]; [by apply str_le_nil_r in Hbc |].
    apply str_le_cons in Hab, Hbc. apply str_le_cons.
    destruct Hab as [Hxy | [-> Hab]], Hbc as [Hyz | [-> Hbc]]; eauto.
    left. rewrite ascii_compare_N in *.
    rewrite N.compare_lt_iff in *. by etrans.
Qed.

#[global] Instance str_le_antisymm : AntiSymm (=) str_le.
Proof. intros a b. apply String.leb_antisym. Qed.

(** ** Tested versions *)

Lemma not_ignored_list (ign vs : list string) :
  not_ignored (VList ign) vs = Ok (filter (fun v => v ∉ ign) vs).
Proof.
  induction vs as [|v vs IH]; [done |].
  simpl. rewrite IH. simpl.
  rewrite filter_cons. unfold bool_decide.
  destruct (decide_rel elem_of v ign), (decide (v ∉ ign)); done.
Qed.

Lemma sorted_Sorted (l : list string) : StronglySorted str_le (sorted l).
Proof. apply StronglySorted_merge_sort; apply _. Qed.

Lemma sorted_Permutation (l : list string) : sorted l ≡ₚ l.
Proof. apply merge_sort_Permutation. Qed.

Lemma TESTED_VERSIONS_list (config : gmap string pyval) (ign : list string) :
  config !! "ignored_versions" = Some (VList ign) ->
  TESTED_VERSIONS config = Ok (sorted (filter (fun v => v ∉ ign) ALL_VERSIONS)).
Proof.
  intros Hign. unfold TESTED_VERSIONS, IGNORED_VERSIONS, getitem.
  rewrite Hign. cbn [rbind]. by rewrite not_ignored_list.
Qed.

Lemma TEST_CONFIG_None : TEST_CONFIG None = TEST_CONFIG_defaults.
Proof. apply dict_update_empty. Qed.

Lemma defaults_ignored_versions :
  TEST_CONFIG_defaults !! "ignored_versions" =
    Some (VList ["2.7"; "3.7"; "3.8"; "3.10"; "3.11"; "3.12"]).
Proof. reflexivity. Qed.

(** For every list of ignored versions in the configuration,
    [TESTED_VERSIONS] is [ALL_VERSIONS] without the ignored versions, in
    ascending order of Python's string comparison; without an override it
    is ["3.13", "3.9"], and so not empty. *)
Lemma tested_versions_sorted_difference :
  (forall (config : gmap string pyval) (ign : list string),
     config !! "ignored_versions" = Some (VList ign) ->
     exists tested,
       TESTED_VERSIONS config = Ok tested /\
       StronglySorted str_le tested /\
       tested ≡ₚ filter (fun v => v ∉ ign) ALL_VERSIONS /\
       (forall v, v ∈ tested <-> v ∈ ALL_VERSIONS /\ v ∉ ign)) /\
  TESTED_VERSIONS (TEST_CONFIG None) = Ok ["3.13"; "3.9"] /\
  TESTED_VERSIONS (TEST_CONFIG None) <> Ok [].
Proof.
  split.
  - intros config ign Hign. eexists. split; [by apply TESTED_VERSIONS_list |].
    split; [apply sorted_Sorted |].
    split; [apply sorted_Permutation |].
    intros v. rewrite sorted_Permutation, list_elem_of_filter. tauto.
  - assert (TESTED_VERSIONS (TEST_CONFIG None) = Ok ["3.13"; "3.9"]) as ->.
    { rewrite TEST_CONFIG_None.
      rewrite (TESTED_VERSIONS_list _ _ defaults_ignored_versions).
      vm_compute. reflexivity. }
    split; [reflexivity | discriminate].
Qed.

Lemma tested_versions_sorted_difference_witness :
  exists tested,
    TESTED_VERSIONS TEST_CONFIG_defaults = Ok tested /\
    StronglySorted str_le tested /\
    tested ≡ₚ filter (fun v => v ∉ ["2.7"; "3.7"; "3.8"; "3.10"; "3.11"; "3.12"])
                ALL_VERSIONS /\
    (forall v, v ∈ tested <->
       v ∈ ALL_VERSIONS /\ v ∉ ["2.7"; "3.7"; "3.8"; "3.10"; "3.11"; "3.12"]).
Proof.
  apply (proj1 tested_versions_sorted_difference TEST_CONFIG_defaults).
  reflexivity.
Defined.

(** C1 at the default configuration: the tested versions come out as
    ["3.13", "3.9"], the order of the strings; as versions 3.9 is the older
    one, so the list is not ascending, and the linting version, taken from
    its head as the oldest tested version (lines 100-103), is 3.13. *)
Theorem tested_versions_default_order :
  TESTED_VERSIONS (TEST_CONFIG None) = Ok ["3.13"; "3.9"] /\
  older "3.9" "3.13" = true /\
  older "3.13" "3.9" = false /\
  LINTING_VERSION (TEST_CONFIG None) = Ok "3.13".
Proof. repeat split; vm_compute; reflexivity. Qed.

(** With nothing ignored the order is that of the strings, not of the
    version numbers: "3.10" comes before "3.8". *)
Example tested_versions_nothing_ignored :
  TESTED_VERSIONS (<["ignored_versions" := VList []]> TEST_CONFIG_defaults) =
    Ok ["2.7"; "3.10"; "3.11"; "3.12"; "3.13"; "3.8"; "3.9"].
Proof. vm_compute. reflexivity. Qed.

(** ** The effective configuration *)

(** C5: without a [noxfile_config.py] (or with an empty override) the
    configuration is the default dictionary: the same five keys, each with
    its documented value. *)
Theorem config_without_override_is_defaults :
  TEST_CONFIG None = TEST_CONFIG_defaults /\
  TEST_CONFIG (Some ∅) = TEST_CONFIG_defaults /\
  dom (TEST_CONFIG None) = recognized_keys /\
  TEST_CONFIG None !! "ignored_versions" =
    Some (VList ["2.7"; "3.7"; "3.8"; "3.10"; "3.11"; "3.12"]) /\
  TEST_CONFIG None !! "enforce_type_hints" = Some (VBool false) /\
  TEST_CONFIG None !! "gcloud_project_env" = Some (VStr "GOOGLE_CLOUD_PROJECT") /\
  TEST_CONFIG None !! "pip_version_override" = Some VNone /\
  TEST_CONFIG None !! "envs" = Some (VDict ∅).
Proof.
  assert (TEST_CONFIG None = TEST_CONFIG_defaults) as -> by apply dict_update_empty.
  assert (TEST_CONFIG (Some ∅) = TEST_CONFIG_defaults) as -> by apply dict_update_empty.
  pose proof defaults_dom. repeat split; done.
Qed.

(** C6: an override that supplies some of the recognized keys yields a
    configuration with the same five keys, in which a supplied key has the
    override's value and every other key keeps its default. *)
Theorem override_replaces_supplied_keys (o : gmap string pyval) :
  dom o ⊆ recognized_keys ->
  dom (TEST_CONFIG (Some o)) = recognized_keys /\
  (forall k v, o !! k = Some v -> TEST_CONFIG (Some o) !! k = Some v) /\
  (forall k, o !! k = None ->
     TEST_CONFIG (Some o) !! k = TEST_CONFIG_defaults !! k).
Proof.
  intros Hsub. unfold TEST_CONFIG, TEST_CONFIG_OVERRIDE. split; [| split].
  - rewrite dict_update_dom, defaults_dom. by apply subseteq_union_1_L.
  - intros k v Hk. by rewrite dict_update_lookup, Hk.
  - intros k Hk. by rewrite dict_update_lookup, Hk.
Qed.

Lemma override_replaces_supplied_keys_witness :
  let o : gmap string pyval :=
    <["pip_version_override" := VStr "20.2.4"]>
      (<["ignored_versions" := VList ["2.7"]]> ∅) in
  dom (TEST_CONFIG (Some o)) = recognized_keys /\
  (forall k v, o !! k = Some v -> TEST_CONFIG (Some o) !! k = Some v) /\
  (forall k, o !! k = None ->
     TEST_CONFIG (Some o) !! k = TEST_CONFIG_defaults !! k).
Proof.
  intros o. apply (override_replaces_supplied_keys o).
  subst o. apply (bool_decide_unpack _). vm_compute. exact I.
Defined.

(** Keys outside the recognized ones are merged in all the same. *)
Lemma override_extra_key (o : gmap string pyval) (k : string) (v : pyval) :
  o !! k = Some v -> TEST_CONFIG (Some o) !! k = Some v.
Proof.
  intros Hk. unfold TEST_CONFIG, TEST_CONFIG_OVERRIDE.
  by rewrite dict_update_lookup, Hk.
Qed.

(** Every recognized key is present in the configuration, whatever the
    override. *)
Lemma TEST_CONFIG_recognized (imported : option (gmap string pyval)) (k : string) :
  k ∈ recognized_keys -> is_Some (TEST_CONFIG imported !! k).
Proof.
  intros Hk. apply elem_of_dom. unfold TEST_CONFIG.
  rewrite dict_update_dom, defaults_dom. apply elem_of_union. by right.
Qed.

(** ** Environment of the test process *)

(** C8: with the variable named by [gcloud_project_env] unset,
    [get_pytest_env_vars] raises [KeyError]; with it set to [project] and
    [envs] a dictionary, the result holds the entries of [envs] and, where
    [envs] does not say otherwise, [project] under both
    [GOOGLE_CLOUD_PROJECT] and [GCLOUD_PROJECT]. *)
Theorem pytest_env_vars_project (w : World) (key : string) :
  TEST_CONFIG (noxfile_config w) !! "gcloud_project_env" = Some (VStr key) ->
  (environ w !! key = None ->
   get_pytest_env_vars w = Raise (KeyError key)) /\
  (forall project envs,
     environ w !! key = Some project ->
     TEST_CONFIG (noxfile_config w) !! "envs" = Some (VDict envs) ->
     get_pytest_env_vars w =
       Ok (dict_update
             (<["GCLOUD_PROJECT" := project]>
                (<["GOOGLE_CLOUD_PROJECT" := project]> ∅)) envs) /\
     forall ret, get_pytest_env_vars w = Ok ret ->
       (forall k v, envs !! k = Some v -> ret !! k = Some v) /\
       (envs !! "GOOGLE_CLOUD_PROJECT" = None ->
        ret !! "GOOGLE_CLOUD_PROJECT" = Some project) /\
       (envs !! "GCLOUD_PROJECT" = None ->
        ret !! "GCLOUD_PROJECT" = Some project) /\
       (forall k, envs !! k = None -> k <> "GOOGLE_CLOUD_PROJECT" ->
          k <> "GCLOUD_PROJECT" -> ret !! k = None)).
Proof.
  intros Hkey. unfold get_pytest_env_vars, getitem. rewrite Hkey.
  cbn [rbind environ_getitem]. split.
  - intros Hunset. by rewrite Hunset.
  - intros project envs Hset Henvs. rewrite Hset, Henvs.
    cbn [rbind update_from]. split; [reflexivity |].
    intros ret [= <-]. repeat split.
    + intros k v Hk. by rewrite dict_update_lookup, Hk.
    + intros Hk. by rewrite dict_update_lookup, Hk.
    + intros Hk. by rewrite dict_update_lookup, Hk.
    + intros k Hk Hk1 Hk2. rewrite dict_update_lookup, Hk.
      rewrite lookup_insert_ne by done. by rewrite lookup_insert_ne.
Qed.

Lemma pytest_env_vars_project_witness :
  get_pytest_env_vars world_without_project =
    Raise (KeyError "GOOGLE_CLOUD_PROJECT") /\
  get_pytest_env_vars sample_world =
    Ok (dict_update
          (<["GCLOUD_PROJECT" := "my-project"]>
             (<["GOOGLE_CLOUD_PROJECT" := "my-project"]> ∅)) ∅).
Proof.
  split.
  - apply (pytest_env_vars_project world_without_project "GOOGLE_CLOUD_PROJECT");
      reflexivity.
  - apply (pytest_env_vars_project sample_world "GOOGLE_CLOUD_PROJECT");
      reflexivity.
Defined.

(** ** Repository root *)

Lemma ancestor_S (i : nat) (p : list string) :
  ancestor (S i) p = ancestor i (parent p).
Proof. unfold ancestor. apply Nat.iter_succ_r. Qed.

Lemma repo_root_loop_found (w : World) (i : nat) :
  forall n p,
    i < n ->
    has_git w (ancestor i p) = true ->
    (forall j, j < i -> has_git w (ancestor j p) = false) ->
    repo_root_loop w n p = Ok (path_str (ancestor i p)).
Proof.
  induction i as [|i IH]; intros n p Hlt Hgit Hfirst.
  - destruct n as [|n]; [lia |]. simpl in *. by rewrite Hgit.
  - destruct n as [|n]; [lia |]. cbn [repo_root_loop].
    assert (has_git w p = false) as -> by (apply (Hfirst 0); lia).
    rewrite ancestor_S in *.
    apply IH; [lia | done |].
    intros j Hj. rewrite <- ancestor_S. apply Hfirst. lia.
Qed.

Lemma repo_root_loop_none (w : World) (n : nat) :
  forall p,
    (forall i, i < n -> has_git w (ancestor i p) = false) ->
    repo_root_loop w n p =
      Raise (Exception "Unable to detect repository root.").
Proof.
  induction n as [|n IH]; intros p Hnone; [done |].
  cbn [repo_root_loop].
  assert (has_git w p = false) as -> by (apply (Hnone 0); lia).
  apply IH.
  intros i Hi. rewrite <- ancestor_S. apply Hnone. lia.
Qed.

(** The lookup ends in one of two ways, whatever the file system. *)
Lemma repo_root_total (w : World) :
  (exists i, i < 10 /\ _get_repo_root w = Ok (path_str (ancestor i (cwd w)))) \/
  _get_repo_root w = Raise (Exception "Unable to detect repository root.").
Proof.
  unfold _get_repo_root. generalize (cwd w) as p. generalize 10 as n.
  induction n as [|n IH]; intros p; [by right |].
  simpl. destruct (has_git w p) eqn:Hgit.
  - left. exists 0. split; [lia | done].
  - destruct (IH (parent p)) as [(i & Hi & ->) | ->]; [| by right].
    left. exists (S i). rewrite ancestor_S. split; [lia | done].
Qed.

(** C2, as the code has it: the lookup examines the working directory and
    its first nine ancestors, in that order, and returns the first of them
    in which something named [.git] exists, be it a directory or a file;
    when none of the ten has one it raises the exception of line 291. *)
Theorem repo_root_first_marked_level (w : World) :
  (forall i, i < 10 ->
     has_git w (ancestor i (cwd w)) = true ->
     (forall j, j < i -> has_git w (ancestor j (cwd w)) = false) ->
     _get_repo_root w = Ok (path_str (ancestor i (cwd w)))) /\
  ((forall i, i < 10 -> has_git w (ancestor i (cwd w)) = false) ->
   _get_repo_root w = Raise (Exception "Unable to detect repository root.")).
Proof.
  split.
  - intros i Hi Hgit Hfirst. by apply repo_root_loop_found.
  - intros Hnone. by apply repo_root_loop_none.
Qed.

Lemma repo_root_first_marked_level_witness :
  _get_repo_root sample_world = Ok "/repo" /\
  _get_repo_root world_without_project = Ok (path_str (ancestor 1 ["repo"; "samples"])).
Proof.
  split.
  - apply (proj1 (repo_root_first_marked_level sample_world) 1).
    + lia.
    + reflexivity.
    + intros j Hj. assert (j = 0) as -> by lia. reflexivity.
  - apply (proj1 (repo_root_first_marked_level world_without_project) 1).
    + lia.
    + reflexivity.
    + intros j Hj. assert (j = 0) as -> by lia. reflexivity.
Defined.

(** In a linked working tree the lookup stops at the tree itself, where
    [.git] is a file; the nearest directory [.git] is one level up. *)
Lemma repo_root_git_file_counterexample :
  ~ repo_root_by_git_directory worktree_world.
Proof.
  intros [Hfound _].
  specialize (Hfound 1).
  assert (_get_repo_root worktree_world = Ok "/repo") as Hclaim.
  { apply Hfound; [lia | reflexivity |].
    intros j Hj. assert (j = 0) as -> by lia. reflexivity. }
  vm_compute in Hclaim. discriminate Hclaim.
Qed.

(** The tenth ancestor is not examined. *)
Example repo_root_tenth_ancestor :
  has_git deep_world (ancestor 10 (cwd deep_world)) = true /\
  _get_repo_root deep_world =
    Raise (Exception "Unable to detect repository root.").
Proof. split; reflexivity. Qed.

(** ** Looking names up in the working directory *)

Lemma lookup_path_app (n : node) (p q : list string) :
  lookup_path n (p ++ q) =
    match lookup_path n p with
    | Some m => lookup_path m q
    | None => None
    end.
Proof.
  revert n. induction p as [|c p IH]; intros n; [done |].
  simpl. destruct n as [|es]; [done |].
  destruct (find_entry c es); [apply IH | done].
Qed.

Lemma stat_name (w : World) (name : string) :
  stat w [name] = find_entry name (listing w).
Proof.
  unfold stat, listing, stat. rewrite lookup_path_app, app_nil_r.
  destruct (lookup_path (root w) (cwd w)) as [[|es]|]; simpl; try done.
  by destruct (find_entry name es).
Qed.

Lemma find_entry_existsb (name : string) (es : list (string * node)) :
  match find_entry name es with Some _ => true | None => false end =
  existsb (fun e => String.eqb e.1 name) es.
Proof.
  induction es as [|[n x] es IH]; [done |].
  simpl. by destruct (String.eqb n name).
Qed.

Lemma path_exists_listing (w : World) (name : string) :
  path_exists w [name] = existsb (fun e => String.eqb e.1 name) (listing w).
Proof.
  unfold path_exists. rewrite stat_name. apply find_entry_existsb.
Qed.

Lemma find_entry_Some (name : string) (es : list (string * node)) (x : node) :
  find_entry name es = Some x -> (name, x) ∈ es.
Proof.
  induction es as [|[n y] es IH]; [done |].
  simpl. destruct (String.eqb n name) eqn:Heq.
  - apply String.eqb_eq in Heq as ->. intros [= ->]. apply list_elem_of_here.
  - intros H. apply list_elem_of_further. by apply IH.
Qed.

(** ** Test discovery *)

Lemma length_filter_eqb_0 {A : Type} (f : A -> bool) (l : list A) :
  Nat.eqb (length (List.filter f l)) 0 = negb (existsb f l).
Proof.
  induction l as [|a l IH]; [done |].
  simpl. by destruct (f a).
Qed.

Lemma length_app_eqb_0 {A : Type} (l1 l2 : list A) :
  Nat.eqb (length (l1 ++ l2)) 0 =
  Nat.eqb (length l1) 0 && Nat.eqb (length l2) 0.
Proof. by destruct l1. Qed.

Lemma existsb_fst {A B : Type} (f : A -> bool) (l : list (A * B)) :
  existsb f (l.*1) = existsb (fun e => f e.1) l.
Proof.
  induction l as [|e l IH]; [done |].
  rewrite fmap_cons. cbn [existsb]. by rewrite IH.
Qed.

Lemma existsb_orb {A : Type} (f g : A -> bool) (l : list A) :
  existsb (fun a => f a || g a) l = existsb f l || existsb g l.
Proof.
  induction l as [|a l IH]; [done |].
  simpl. rewrite IH. destruct (f a), (g a), (existsb f l); done.
Qed.

Lemma glob_wildcard (w : World) (pat : string) :
  has_magic pat = true -> ishidden pat = false ->
  glob w pat = List.filter (glob_match pat) (listing w).*1.
Proof. intros Hmagic Hhidden. unfold glob. by rewrite Hmagic, Hhidden. Qed.

Lemma glob_literal (w : World) (pat : string) :
  has_magic pat = false ->
  glob w pat = if path_exists w [pat] then [pat] else [].
Proof. intros Hmagic. unfold glob. by rewrite Hmagic. Qed.

(** Tests are present exactly when some entry of the working directory has
    a test name. *)
Lemma tests_present_names (w : World) :
  tests_present w = existsb (fun e => test_entry_name e.1) (listing w).
Proof.
  unfold tests_present, test_list.
  rewrite !length_app_eqb_0.
  rewrite (glob_wildcard w "*_test.py") by reflexivity.
  rewrite (glob_wildcard w "test_*.py") by reflexivity.
  rewrite (glob_literal w "tests") by reflexivity.
  rewrite !length_filter_eqb_0, !existsb_fst, path_exists_listing.
  unfold test_entry_name. rewrite !existsb_orb.
  destruct (existsb (fun e => glob_match "*_test.py" e.1) (listing w)),
    (existsb (fun e => glob_match "test_*.py" e.1) (listing w)),
    (existsb (fun e => String.eqb e.1 "tests") (listing w)); reflexivity.
Qed.

(** ** What the patterns match *)

Lemma append_nil_l (t : string) : EmptyString +:+ t = t.
Proof. reflexivity. Qed.

Lemma append_cons (a : ascii) (s t : string) :
  String a s +:+ t = String a (s +:+ t).
Proof. reflexivity. Qed.

Lemma fnmatch_star (pat name : string) :
  fnmatch (String "*" pat) name = true <->
  exists s t, name = s +:+ t /\ fnmatch pat t = true.
Proof.
  cbn [fnmatch]. change (Ascii.eqb "*" "*") with true. cbv iota.
  induction name as [|a name IH].
  - rewrite orb_false_r. split.
    + intros H. by exists EmptyString, EmptyString.
    + intros (s & t & Heq & H). destruct s; [| done].
      rewrite append_nil_l in Heq. by subst t.
  - rewrite orb_true_iff, IH. split.
    + intros [H | (s & t & -> & H)].
      * by exists EmptyString, (String a name).
      * by exists (String a s), t.
    + intros (s & t & Heq & H). destruct s as [|b s].
      * rewrite append_nil_l in Heq. left. by subst t.
      * rewrite append_cons in Heq. injection Heq as -> ->.
        right. by exists s, t.
Qed.

Lemma fnmatch_char (c : ascii) (pat name : string) :
  Ascii.eqb c "*" = false -> Ascii.eqb c "?" = false ->
  fnmatch (String c pat) name = true <->
  exists name', name = String c name' /\ fnmatch pat name' = true.
Proof.
  intros Hstar Hany. cbn [fnmatch]. rewrite Hstar.
  destruct name as [|d name].
  - split; [done | by intros (? & ? & _)].
  - rewrite Hany. cbn [orb]. rewrite andb_true_iff, Ascii.eqb_eq. split.
    + intros [-> H]. by exists name.
    + intros (name' & [= -> ->] & H). done.
Qed.

Lemma fnmatch_nil (name : string) :
  fnmatch EmptyString name = true <-> name = EmptyString.
Proof. by destruct name. Qed.

Lemma fnmatch_suffix_test_py (name : string) :
  fnmatch "*_test.py" name = true <-> exists s, name = s +:+ "_test.py".
Proof.
  rewrite fnmatch_star. split.
  - intros (s & t & -> & H). exists s. f_equal.
    repeat (apply fnmatch_char in H as (? & -> & H); [| reflexivity ..]).
    by apply fnmatch_nil in H as ->.
  - intros [s ->]. exists s, "_test.py". split; reflexivity.
Qed.

Lemma fnmatch_test_prefix_py (name : string) :
  fnmatch "test_*.py" name = true <-> exists s, name = "test_" +:+ s +:+ ".py".
Proof.
  split.
  - intros H.
    do 5 (apply fnmatch_char in H as (? & -> & H); [| reflexivity ..]).
    apply fnmatch_star in H as (s & t & -> & H). exists s.
    repeat (apply fnmatch_char in H as (? & -> & H); [| reflexivity ..]).
    by apply fnmatch_nil in H as ->.
  - intros [s ->]. change ("test_" +:+ s +:+ ".py")
      with (String "t" (String "e" (String "s" (String "t" (String "_" (s +:+ ".py")))))).
    do 5 (apply fnmatch_char; [reflexivity .. |]; eexists; split; [reflexivity |]).
    apply fnmatch_star. exists s, ".py". split; reflexivity.
Qed.

(** The names that count as tests: [tests] itself, a name ending in
    [_test.py] that does not start with a dot, and a name that starts with
    [test_] and ends in [.py]. *)
Lemma test_entry_name_shape (name : string) :
  test_entry_name name = true <->
  name = "tests" \/
  (ishidden name = false /\ exists s, name = s +:+ "_test.py") \/
  (exists s, name = "test_" +:+ s +:+ ".py").
Proof.
  unfold test_entry_name, glob_match.
  rewrite !orb_true_iff, !andb_true_iff, negb_true_iff.
  rewrite String.eqb_eq, fnmatch_suffix_test_py, fnmatch_test_prefix_py.
  split.
  - intros [[[? ?] | [_ ?]] | ?]; auto.
  - intros [? | [[? ?] | [s ->]]]; auto.
    left. right. split; [reflexivity | by exists s].
Qed.

Lemma existsb_elem_of {A : Type} (f : A -> bool) (l : list A) :
  existsb f l = true <-> exists a, a ∈ l /\ f a = true.
Proof.
  rewrite existsb_exists. setoid_rewrite list_elem_of_In. reflexivity.
Qed.

(** C7, as the code has it: the test task goes on past its check exactly
    when the working directory has an entry, of whatever kind, that is
    named [tests], or whose name ends in [_test.py] and does not start with
    a dot, or whose name starts with [test_] and ends in [.py]. *)
Theorem tests_found_by_name (w : World) :
  tests_present w = true <->
  exists name n, (name, n) ∈ listing w /\
    (name = "tests" \/
     (ishidden name = false /\ exists s, name = s +:+ "_test.py") \/
     (exists s, name = "test_" +:+ s +:+ ".py")).
Proof.
  rewrite tests_present_names, existsb_elem_of. split.
  - intros ([name n] & Hin & Hname). exists name, n.
    split; [done |]. by apply test_entry_name_shape.
  - intros (name & n & Hin & Hname). exists (name, n).
    split; [done |]. by apply test_entry_name_shape.
Qed.

Lemma tests_found_by_name_witness : tests_present tests_file_world = true.
Proof.
  apply (proj2 (tests_found_by_name tests_file_world)).
  exists "tests", (File "notes"). split.
  - apply list_elem_of_here.
  - left. reflexivity.
Defined.

(** A regular file named [tests] makes the task go on, although no entry
    is a test file by pattern or a directory named [tests]. *)
Lemma tests_found_by_kind_counterexample :
  ~ (tests_present tests_file_world = true <->
     tests_expected_by_kind tests_file_world).
Proof.
  intros [Hto _].
  destruct (Hto eq_refl) as (name & n & Hin & Hkind).
  apply list_elem_of_In in Hin. simpl in Hin.
  destruct Hin as [[= <- <-] | []]. discriminate Hkind.
Qed.

(** A directory whose name matches a pattern counts as well. *)
Example tests_found_directory_named_like_a_file :
  tests_present
    {| root := Dir [("test_data.py", Dir [])]; cwd := [];
       environ := ∅; noxfile_config := None |} = true.
Proof. reflexivity. Qed.

(** ** The test task without tests *)

(** C3: when no entry of the working directory has a test name, the test
    task prints its message and returns; it installs nothing and runs
    nothing. *)
Theorem no_tests_no_tool_invocation (str_of : pyval -> string) (w : World)
    (session : Session) (post_install : option (Session -> task unit)) :
  existsb (fun e => test_entry_name e.1) (listing w) = false ->
  _session_tests str_of w session post_install =
    ([Print "No tests found, skipping directory."], Ok tt) /\
  List.filter is_install
    (trace (_session_tests str_of w session post_install)) = [] /\
  List.filter is_run
    (trace (_session_tests str_of w session post_install)) = [].
Proof.
  intros Hnone. rewrite <- tests_present_names in Hnone.
  unfold tests_present in Hnone. apply negb_false_iff in Hnone.
  unfold _session_tests. rewrite Hnone. done.
Qed.

Lemma no_tests_no_tool_invocation_witness :
  _session_tests (fun _ => "") no_tests_world (session_exiting 1) None =
    ([Print "No tests found, skipping directory."], Ok tt) /\
  List.filter is_install
    (trace (_session_tests (fun _ => "") no_tests_world (session_exiting 1) None))
    = [] /\
  List.filter is_run
    (trace (_session_tests (fun _ => "") no_tests_world (session_exiting 1) None))
    = [].
Proof.
  apply (no_tests_no_tool_invocation (fun _ => "") no_tests_world
           (session_exiting 1) None).
  reflexivity.
Defined.

(** ** Stepping through a task *)

Lemma outcome_tbind_ok {A B : Type} (t : task A) (k : A -> task B)
    (log : list event) (a : A) :
  t = (log, Ok a) -> outcome (tbind t k) = outcome (k a).
Proof. intros ->. unfold tbind, outcome. by destruct (k a). Qed.

Lemma outcome_tbind_raise {A B : Type} (t : task A) (k : A -> task B)
    (e : exn) :
  outcome t = Raise e -> outcome (tbind t k) = Raise e.
Proof. destruct t as [log [a|e']]; [done |]. by intros [= ->]. Qed.

Lemma trace_tbind_ok {A B : Type} (t : task A) (k : A -> task B)
    (log : list event) (a : A) :
  t = (log, Ok a) -> trace (tbind t k) = log ++ trace (k a).
Proof. intros ->. unfold tbind, trace. by destruct (k a). Qed.

Lemma session_install_ok (session : Session) (args : list string) :
  install_fails session args = false ->
  session_install session args = ([Install args], Ok tt).
Proof. intros H. unfold session_install. by rewrite H. Qed.

(** ** Exit status of the test runner *)

(** C4: once the task has come to start the test runner, it succeeds when
    the runner exits with 0 or with 5 and fails with [CommandFailed] on any
    other exit status; the runner is the last thing it starts. *)
Theorem pytest_exit_codes (str_of : pyval -> string) (w : World)
    (session : Session) (post_install : option (Session -> task unit))
    (log : list event) (args : list string) (env : gmap string string) :
  tests_present w = true ->
  session_tests_setup str_of w session post_install = (log, Ok (args, env)) ->
  trace (_session_tests str_of w session post_install) =
    log ++ [Run "pytest" args [0; 5]%Z env] /\
  (exit_status session "pytest" args = 0%Z \/
   exit_status session "pytest" args = 5%Z ->
   outcome (_session_tests str_of w session post_install) = Ok tt) /\
  (exit_status session "pytest" args <> 0%Z ->
   exit_status session "pytest" args <> 5%Z ->
   outcome (_session_tests str_of w session post_install) =
     Raise CommandFailed).
Proof.
  intros Hpresent Hsetup. unfold tests_present in Hpresent.
  apply negb_true_iff in Hpresent.
  unfold _session_tests. rewrite Hpresent, Hsetup.
  unfold tbind, session_run, trace, outcome. cbn [fst snd].
  split; [reflexivity |]. split.
  - intros Hcode. rewrite bool_decide_eq_true_2; [done |].
    destruct Hcode as [-> | ->]; [apply list_elem_of_here |].
    apply list_elem_of_further, list_elem_of_here.
  - intros H0 H5. rewrite bool_decide_eq_false_2; [done |].
    intros Hin. apply elem_of_cons in Hin as [? | Hin]; [done |].
    apply elem_of_cons in Hin as [? | Hin]; [done |].
    by apply elem_of_nil in Hin.
Qed.

Lemma pytest_exit_codes_witness :
  outcome (_session_tests (fun _ => "") sample_world (session_exiting 5) None)
    = Ok tt /\
  outcome (_session_tests (fun _ => "") sample_world (session_exiting 0) None)
    = Ok tt /\
  outcome (_session_tests (fun _ => "") sample_world (session_exiting 1) None)
    = Raise CommandFailed.
Proof.
  pose (log := [Install ["--upgrade"; "pip"];
                Install ["-r"; "requirements.txt"; "--only-binary"; ":all"]]).
  pose (args := ["--junitxml=sponge_log.xml"; "-n"; "auto"]).
  pose (env := <["GCLOUD_PROJECT" := "my-project"]>
                 (<["GOOGLE_CLOUD_PROJECT" := "my-project"]>
                    (∅ : gmap string string))).
  assert (forall status,
            session_tests_setup (fun _ => "") sample_world
              (session_exiting status) None = (log, Ok (args, env))) as Hsetup.
  { intros status. vm_compute. reflexivity. }
  split; [| split].
  - apply (pytest_exit_codes _ sample_world (session_exiting 5) None
             log args env eq_refl (Hsetup 5%Z)).
    right. reflexivity.
  - apply (pytest_exit_codes _ sample_world (session_exiting 0) None
             log args env eq_refl (Hsetup 0%Z)).
    left. reflexivity.
  - apply (pytest_exit_codes _ sample_world (session_exiting 1) None
             log args env eq_refl (Hsetup 1%Z)); discriminate.
Defined.

(** ** The local variable [packages] *)

Lemma pip_version_override_present (w : World) :
  exists v, getitem (TEST_CONFIG (noxfile_config w)) "pip_version_override" = Ok v.
Proof.
  destruct (TEST_CONFIG_recognized (noxfile_config w) "pip_version_override")
    as [v Hv].
  - unfold recognized_keys. set_solver.
  - exists v. unfold getitem. by rewrite Hv.
Qed.

Lemma packages_unbound (str_of : pyval -> string) (w : World)
    (session : Session) (post_install : option (Session -> task unit)) :
  tests_present w = true ->
  path_exists w ["requirements.txt"] = false ->
  (forall args, install_fails session args = false) ->
  (exists text, stat w ["requirements-test.txt"] = Some (File text)) \/
  (stat w ["requirements-test.txt"] = None /\
   (INSTALL_LIBRARY_FROM_SOURCE w = true -> exists r, _get_repo_root w = Ok r) /\
   (forall hook, post_install = Some hook ->
      exists log, hook session = (log, Ok tt))) ->
  outcome (_session_tests str_of w session post_install) =
    Raise (UnboundLocalError "packages").
Proof.
  intros Hpresent Hreq Hinstall Hcase.
  unfold tests_present in Hpresent. apply negb_true_iff in Hpresent.
  unfold _session_tests. rewrite Hpresent.
  apply outcome_tbind_raise. unfold session_tests_setup.
  destruct (pip_version_override_present w) as [v ->].
  erewrite outcome_tbind_ok by reflexivity.
  assert (exists log,
            (if truthy v
             then session_install session ["pip==" +:+ str_of v]
             else session_install session ["--upgrade"; "pip"]) = (log, Ok tt))
    as [log_pip ->].
  { destruct (truthy v); eexists; by apply session_install_ok. }
  erewrite outcome_tbind_ok by reflexivity.
  rewrite Hreq. erewrite outcome_tbind_ok by reflexivity.
  unfold path_exists at 1, open_file.
  destruct Hcase as [[text Htext] | (Hnone & Hroot & Hhook)].
  - rewrite Htext. apply outcome_tbind_raise.
    erewrite outcome_tbind_ok by reflexivity. reflexivity.
  - rewrite Hnone. erewrite outcome_tbind_ok by reflexivity.
    assert (exists log,
              (if INSTALL_LIBRARY_FROM_SOURCE w
               then repo_root <- lift (_get_repo_root w) ;;
                    session_install session ["-e"; repo_root]
               else tret tt) = (log, Ok tt)) as [log_src ->].
    { destruct (INSTALL_LIBRARY_FROM_SOURCE w); [| by eexists].
      destruct (Hroot eq_refl) as [r ->]. eexists.
      unfold tbind, lift. by rewrite session_install_ok. }
    erewrite outcome_tbind_ok by reflexivity.
    assert (exists log,
              match post_install with
              | Some hook => hook session
              | None => tret tt
              end = (log, Ok tt)) as [log_hook ->].
    { destruct post_install as [hook |]; [| by eexists].
      destruct (Hhook hook eq_refl) as [log ->]. by eexists. }
    erewrite outcome_tbind_ok by reflexivity. reflexivity.
Qed.

(** C10: in a directory that has tests and no [requirements.txt], and in
    which the installations succeed, the task ends in [UnboundLocalError]
    for [packages]: at line 229 when [requirements-test.txt] is a file, at
    line 248 when there is no such file and the steps in between succeed.
    A directory holding a single test file is such a state: there the task
    upgrades pip and then fails. *)
Theorem packages_read_before_assignment (str_of : pyval -> string) :
  (forall (w : World) (session : Session)
          (post_install : option (Session -> task unit)),
     tests_present w = true ->
     path_exists w ["requirements.txt"] = false ->
     (forall args, install_fails session args = false) ->
     (exists text, stat w ["requirements-test.txt"] = Some (File text)) \/
     (stat w ["requirements-test.txt"] = None /\
      (INSTALL_LIBRARY_FROM_SOURCE w = true ->
       exists r, _get_repo_root w = Ok r) /\
      (forall hook, post_install = Some hook ->
         exists log, hook session = (log, Ok tt))) ->
     outcome (_session_tests str_of w session post_install) =
       Raise (UnboundLocalError "packages")) /\
  (exists (w : World) (session : Session),
     listing w = [("main_test.py", File "def test_main(): pass")] /\
     _session_tests str_of w session None =
       ([Install ["--upgrade"; "pip"]], Raise (UnboundLocalError "packages"))).
Proof.
  split; [apply packages_unbound |].
  exists bare_tests_world, (session_exiting 0). split; [reflexivity |].
  vm_compute. reflexivity.
Qed.

Lemma packages_read_before_assignment_witness :
  outcome (_session_tests (fun _ => "") bare_tests_world (session_exiting 0) None)
    = Raise (UnboundLocalError "packages") /\
  outcome (_session_tests (fun _ => "") test_requirements_world
             (session_exiting 0) None)
    = Raise (UnboundLocalError "packages").
Proof.
  split.
  - apply (proj1 (packages_read_before_assignment (fun _ => ""))
             bare_tests_world (session_exiting 0) None); try reflexivity.
    right. split; [reflexivity |]. split; discriminate.
  - apply (proj1 (packages_read_before_assignment (fun _ => ""))
             test_requirements_world (session_exiting 0) None);
      try reflexivity.
    left. eexists. reflexivity.
Defined.

(** A directory named [requirements-test.txt] fails earlier, when it is
    opened. *)
Example requirements_test_directory :
  outcome
    (_session_tests (fun _ => "")
       {| root := Dir [("main_test.py", File "");
                       ("requirements-test.txt", Dir [])];
          cwd := []; environ := ∅; noxfile_config := None |}
       (session_exiting 0) None) =
    Raise (IsADirectoryError "requirements-test.txt").
Proof. vm_compute. reflexivity. Qed.

(** ** Local import names *)

Example splitext_module : splitext "main.py" = ("main", ".py").
Proof. reflexivity. Qed.

Example splitext_two_dots : splitext "archive.tar.gz" = ("archive.tar", ".gz").
Proof. reflexivity. Qed.

Example splitext_leading_dot : splitext ".py" = (".py", "").
Proof. reflexivity. Qed.

Example splitext_no_dot : splitext "cache" = ("cache", "").
Proof. reflexivity. Qed.

(** The names returned: the part before the extension of every entry that
    has the extension [.py], or for which that part names a directory and
    is not found inside the text [__pycache__]. *)
Lemma local_import_names_elem (w : World) (start_dir : list string)
    (es : list (string * node)) :
  stat w start_dir = Some (Dir es) ->
  exists names,
    _determine_local_import_names w start_dir = Ok names /\
    forall b, b ∈ names <->
      exists name ext,
        name ∈ es.*1 /\ splitext name = (b, ext) /\
        (ext = ".py" \/
         (isdir w (join start_dir b) = true /\
          str_contains b "__pycache__" = false)).
Proof.
  intros Hstat. unfold _determine_local_import_names, listdir.
  rewrite Hstat. cbn [rbind]. eexists. split; [reflexivity |].
  intros b. rewrite list_elem_of_fmap. split.
  - intros ([b' ext] & -> & Hin).
    apply list_elem_of_In, filter_In in Hin as [Hin Hkeep].
    apply list_elem_of_In, list_elem_of_fmap in Hin as (name & Hsplit & Hin).
    exists name, ext. split; [done |]. split; [done |].
    apply orb_true_iff in Hkeep as [Hext | Hdir].
    + left. by apply String.eqb_eq in Hext.
    + right. apply andb_true_iff in Hdir as [? Hnot].
      by apply negb_true_iff in Hnot.
  - intros (name & ext & Hin & Hsplit & Hkeep).
    exists (b, ext). split; [done |].
    apply list_elem_of_In, filter_In. split.
    + apply list_elem_of_In, list_elem_of_fmap. by exists name.
    + apply orb_true_iff. destruct Hkeep as [-> | [Hdir Hnot]].
      * left. reflexivity.
      * right. by rewrite Hdir, Hnot.
Qed.

(** C9 at a sample directory: [cache] is a subdirectory other than
    [__pycache__], and so a local name by the description, but the word
    [cache] occurs in [__pycache__] and the function leaves the directory
    out. *)
Theorem local_import_names_drop_cache_directory :
  _determine_local_import_names cache_dir_world [] = Ok ["main"; "utils"] /\
  local_name_by_description (listing cache_dir_world) "cache".
Proof.
  split; [reflexivity |].
  right. exists []. split; [| discriminate].
  apply list_elem_of_In. simpl. auto.
Qed.

(** The same happens to every directory whose name occurs in
    [__pycache__], unless a Python file shares the name. *)
Lemma local_import_names_substring (w : World) (start_dir : list string)
    (es : list (string * node)) (names : list string) (d : string) :
  stat w start_dir = Some (Dir es) ->
  _determine_local_import_names w start_dir = Ok names ->
  str_contains d "__pycache__" = true ->
  (forall name, name ∈ es.*1 -> splitext name <> (d, ".py")) ->
  d ∉ names.
Proof.
  intros Hstat Hnames Hsub Hnopy Hin.
  destruct (local_import_names_elem w start_dir es Hstat)
    as (names' & Hnames' & Hspec).
  rewrite Hnames in Hnames'. injection Hnames' as <-.
  apply Hspec in Hin as (name & ext & Hname & Hsplit & [-> | [_ Hnot]]).
  - by apply (Hnopy name).
  - congruence.
Qed.

(** The directory test looks at the name without its extension. *)
Example local_import_names_dotted_directory :
  _determine_local_import_names
    {| root := Dir [("pkg.d", Dir []); ("notes.txt", File ""); ("notes", Dir [])];
       cwd := []; environ := ∅; noxfile_config := None |} [] =
    Ok ["notes"; "notes"].
Proof. reflexivity. Qed.

(** ** The sorting function and the linting version *)

(** Any ascending arrangement of a list is the one [sorted] returns, so
    the result does not depend on the sorting algorithm. *)
Lemma sorted_unique (l l' : list string) :
  StronglySorted str_le l' -> l' ≡ₚ l -> l' = sorted l.
Proof.
  intros Hsorted Hperm.
  apply (StronglySorted_unique str_le); [done | apply sorted_Sorted |].
  by rewrite sorted_Permutation.
Qed.

(** Under the defaults the linting version is the first tested version in
    string order. *)
Example linting_version_default :
  LINTING_VERSION (TEST_CONFIG None) = Ok "3.13".
Proof. vm_compute. reflexivity. Qed.

(** * Further properties of the module *)

(** ** Splitting a name and its extension *)

Lemma append_nil_r (s : string) : s +:+ EmptyString = s.
Proof. induction s as [|a s IH]; [done |]. by rewrite append_cons, IH. Qed.

Lemma append_length (s t : string) :
  String.length (s +:+ t) = String.length s + String.length t.
Proof.
  induction s as [|a s IH]; [done |].
  rewrite append_cons. cbn [String.length]. by rewrite IH.
Qed.

Lemma substring_all (t : string) : String.substring 0 (String.length t) t = t.
Proof. induction t as [|a t IH]; [done |]. simpl. by rewrite IH. Qed.

Lemma substring_prefix (s t : string) :
  String.substring 0 (String.length s) (s +:+ t) = s.
Proof.
  induction s as [|a s IH].
  - rewrite append_nil_l. by destruct t.
  - rewrite append_cons. simpl. by rewrite IH.
Qed.

Lemma substring_suffix (s t : string) :
  String.substring (String.length s) (String.length t) (s +:+ t) = t.
Proof.
  induction s as [|a s IH].
  - rewrite append_nil_l. apply substring_all.
  - rewrite append_cons. simpl. apply IH.
Qed.

Lemma rfind_split (c : ascii) (s : string) (i : nat) :
  rfind c s = Some i ->
  exists s1 s2,
    s = s1 +:+ String c s2 /\ String.length s1 = i /\ rfind c s2 = None.
Proof.
  revert i. induction s as [|a s IH]; intros i; [done |].
  cbn [rfind]. destruct (rfind c s) as [j|] eqn:Hj.
  - intros [= <-]. destruct (IH j eq_refl) as (s1 & s2 & -> & <- & Hnone).
    by exists (String a s1), s2.
  - destruct (Ascii.eqb a c) eqn:Hac; [| done].
    intros [= <-]. apply Ascii.eqb_eq in Hac as ->.
    by exists EmptyString, s.
Qed.

Lemma splitext_parts (p b e : string) :
  splitext p = (b, e) ->
  b +:+ e = p /\
  (e = EmptyString \/
   exists e', e = String "." e' /\ rfind "." e' = None).
Proof.
  unfold splitext. destruct (rfind "." p) as [d|] eqn:Hd.
  - destruct (existsb _ _).
    + apply rfind_split in Hd as (s1 & s2 & -> & <- & Hnone).
      rewrite append_length.
      replace (String.length s1 + String.length (String "." s2)
               - String.length s1)
        with (String.length (String "." s2)) by lia.
      rewrite substring_prefix, substring_suffix.
      intros [= <- <-]. split; [done |]. right. by exists s2.
    + intros [= <- <-]. split; [apply append_nil_r | by left].
  - intros [= <- <-]. split; [apply append_nil_r | by left].
Qed.

Lemma existsb_substring (f : ascii -> bool) (s : string) :
  forall n m,
    existsb f (list_ascii_of_string (String.substring n m s)) = true ->
    existsb f (list_ascii_of_string (String.substring 0 (n + m) s)) = true.
Proof.
  induction s as [|c s IH]; intros n m.
  - by destruct n, m.
  - destruct n as [|n]; [done |].
    cbn [String.substring Nat.add list_ascii_of_string existsb].
    intros H. rewrite (IH n m H). apply orb_true_r.
Qed.

Lemma substring_0_0 (s : string) : String.substring 0 0 s = EmptyString.
Proof. by destruct s. Qed.

Lemma substring_n_0 (s : string) (n : nat) :
  String.substring n 0 s = EmptyString.
Proof.
  revert n. induction s as [|c s IH]; intros [|n]; try done. apply IH.
Qed.

Lemma rfind_app (c : ascii) (s t : string) :
  rfind c (s +:+ t) =
    match rfind c t with
    | Some i => Some (String.length s + i)
    | None => rfind c s
    end.
Proof.
  induction s as [|a s IH].
  - rewrite append_nil_l. by destruct (rfind c t).
  - rewrite append_cons. cbn [rfind String.length]. rewrite IH.
    by destruct (rfind c t).
Qed.

(** A name made of a stem and [.py] splits into the two, when the stem has
    no separator and is not made of dots alone. *)
Lemma splitext_py (x : string) :
  rfind "/" x = None ->
  existsb (fun a => negb (Ascii.eqb a ".")) (list_ascii_of_string x) = true ->
  splitext (x +:+ ".py") = (x, ".py").
Proof.
  intros Hsep Hstem. unfold splitext.
  assert (rfind "/" ".py" = None) as Hpy_sep by reflexivity.
  assert (rfind "." ".py" = Some 0) as Hpy_dot by reflexivity.
  rewrite !rfind_app, Hpy_sep, Hpy_dot, Hsep.
  rewrite Nat.add_0_r, Nat.sub_0_r.
  rewrite append_length.
  replace (String.length x + String.length ".py" - String.length x)
    with (String.length ".py") by lia.
  by rewrite substring_prefix, substring_suffix, Hstem.
Qed.

(** Joining the two parts that [splitext] returns gives the name back. *)
Lemma splitext_round_trip (p : string) :
  (splitext p).1 +:+ (splitext p).2 = p.
Proof.
  destruct (splitext p) as [b e] eqn:Hsplit.
  by apply splitext_parts in Hsplit as [? _].
Qed.

(** The extension that [splitext] returns is empty, or it begins with a
    dot and has no other dot; in the second case the part before it has a
    character that is not a dot. *)
Lemma splitext_extension_shape (p : string) :
  (splitext p).2 = EmptyString \/
  (exists e', (splitext p).2 = String "." e' /\ rfind "." e' = None) /\
  existsb (fun a => negb (Ascii.eqb a "."))
    (list_ascii_of_string (splitext p).1) = true.
Proof.
  destruct (splitext p) as [b e] eqn:Hsplit. cbn [fst snd].
  destruct (splitext_parts p b e Hsplit) as [_ [-> | Hext]]; [by left |].
  right. split; [done |].
  unfold splitext in Hsplit.
  destruct (rfind "." p) as [d|] eqn:Hd.
  2:{ injection Hsplit as <- <-. by destruct Hext as (? & ? & _). }
  destruct (existsb _ _) eqn:Hstem.
  2:{ injection Hsplit as <- <-. by destruct Hext as (? & ? & _). }
  injection Hsplit as <- _.
  set (n := match rfind "/" p with Some i => S i | None => 0 end) in *.
  destruct (d - n) as [|m] eqn:Hm.
  { by rewrite substring_n_0 in Hstem. }
  apply existsb_substring in Hstem.
  by replace (n + S m) with d in Hstem by lia.
Qed.

(** ** The names given to the linter *)

Lemma local_import_names_listdir (w : World) (start_dir names : list string) :
  _determine_local_import_names w start_dir = Ok names ->
  exists es, stat w start_dir = Some (Dir es).
Proof.
  unfold _determine_local_import_names, listdir.
  destruct (stat w start_dir) as [[text | es] |]; try done. by exists es.
Qed.

(** X1: [_determine_local_import_names] returns at most one name per
    entry of the directory, and each name it returns is an entry's name
    without its extension: the entry ends in [.py], or the shortened name
    is a directory. *)
Theorem local_import_names_from_entries (w : World)
    (start_dir names : list string) :
  _determine_local_import_names w start_dir = Ok names ->
  exists entries,
    listdir w start_dir = Ok entries /\
    length names <= length entries /\
    forall b, b ∈ names ->
      exists ext,
        b +:+ ext ∈ entries /\
        (ext = ".py" \/ isdir w (join start_dir b) = true).
Proof.
  intros Hnames.
  destruct (local_import_names_listdir w start_dir names Hnames) as [es Hstat].
  destruct (local_import_names_elem w start_dir es Hstat)
    as (names' & Hnames' & Hspec).
  rewrite Hnames in Hnames'. injection Hnames' as <-.
  exists (es.*1). split; [| split].
  - unfold listdir. by rewrite Hstat.
  - revert Hnames. unfold _determine_local_import_names, listdir.
    rewrite Hstat. cbn [rbind]. intros [= <-].
    rewrite !length_fmap.
    etrans; [apply List.filter_length_le |]. by rewrite !length_fmap.
  - intros b Hb. apply Hspec in Hb as (name & ext & Hin & Hsplit & Hkeep).
    exists ext. apply splitext_parts in Hsplit as [-> _].
    split; [done |]. destruct Hkeep as [? | [? _]]; auto.
Qed.

Lemma local_import_names_from_entries_witness :
  exists entries,
    listdir cache_dir_world [] = Ok entries /\
    length ["main"; "utils"] <= length entries /\
    forall b, b ∈ ["main"; "utils"] ->
      exists ext,
        b +:+ ext ∈ entries /\
        (ext = ".py" \/ isdir cache_dir_world (join [] b) = true).
Proof.
  apply (local_import_names_from_entries cache_dir_world [] ["main"; "utils"]).
  reflexivity.
Defined.

(** X2: an entry named [x.py], where [x] has no separator and is not made
    of dots alone, puts [x] among the local import names. *)
Theorem local_import_names_python_module (w : World)
    (start_dir entries names : list string) (x : string) :
  listdir w start_dir = Ok entries ->
  _determine_local_import_names w start_dir = Ok names ->
  x +:+ ".py" ∈ entries ->
  rfind "/" x = None ->
  existsb (fun a => negb (Ascii.eqb a ".")) (list_ascii_of_string x) = true ->
  x ∈ names.
Proof.
  intros Hlist Hnames Hin Hsep Hstem.
  destruct (local_import_names_listdir w start_dir names Hnames) as [es Hstat].
  destruct (local_import_names_elem w start_dir es Hstat)
    as (names' & Hnames' & Hspec).
  rewrite Hnames in Hnames'. injection Hnames' as <-.
  unfold listdir in Hlist. rewrite Hstat in Hlist. injection Hlist as <-.
  apply Hspec. exists (x +:+ ".py"), ".py".
  split; [done |]. split; [by apply splitext_py | by left].
Qed.

Lemma local_import_names_python_module_witness :
  "main" ∈ ["main"; "utils"].
Proof.
  apply (local_import_names_python_module cache_dir_world []
           ["main.py"; "utils"; "cache"; "__pycache__"] ["main"; "utils"]
           "main"); try reflexivity.
  apply list_elem_of_here.
Defined.

(** X3: a subdirectory whose name has no dot and does not occur inside the
    text [__pycache__] is among the local import names. *)
Theorem local_import_names_directory (w : World)
    (start_dir entries names : list string) (d : string) :
  listdir w start_dir = Ok entries ->
  _determine_local_import_names w start_dir = Ok names ->
  d ∈ entries ->
  isdir w (join start_dir d) = true ->
  rfind "." d = None ->
  str_contains d "__pycache__" = false ->
  d ∈ names.
Proof.
  intros Hlist Hnames Hin Hdir Hdot Hsub.
  destruct (local_import_names_listdir w start_dir names Hnames) as [es Hstat].
  destruct (local_import_names_elem w start_dir es Hstat)
    as (names' & Hnames' & Hspec).
  rewrite Hnames in Hnames'. injection Hnames' as <-.
  unfold listdir in Hlist. rewrite Hstat in Hlist. injection Hlist as <-.
  apply Hspec. exists d, "". split; [done |]. split.
  - unfold splitext. by rewrite Hdot.
  - by right.
Qed.

Lemma local_import_names_directory_witness :
  "utils" ∈ ["main"; "utils"].
Proof.
  apply (local_import_names_directory cache_dir_world []
           ["main.py"; "utils"; "cache"; "__pycache__"] ["main"; "utils"]
           "utils"); try reflexivity.
  apply list_elem_of_further, list_elem_of_here.
Defined.

(** X4: [__pycache__] is not among the local import names, unless the
    directory has an entry named [__pycache__.py]. *)
Theorem local_import_names_without_pycache (w : World)
    (start_dir entries names : list string) :
  listdir w start_dir = Ok entries ->
  _determine_local_import_names w start_dir = Ok names ->
  "__pycache__.py" ∉ entries ->
  "__pycache__" ∉ names.
Proof.
  intros Hlist Hnames Hnopy.
  destruct (local_import_names_listdir w start_dir names Hnames) as [es Hstat].
  unfold listdir in Hlist. rewrite Hstat in Hlist. injection Hlist as <-.
  apply (local_import_names_substring w start_dir es); try done.
  intros name Hin Hsplit. apply splitext_parts in Hsplit as [Hname _].
  apply Hnopy. rewrite <- Hname in Hin. exact Hin.
Qed.

Lemma local_import_names_without_pycache_witness :
  "__pycache__" ∉ ["main"; "utils"].
Proof.
  apply (local_import_names_without_pycache cache_dir_world []
           ["main.py"; "utils"; "cache"; "__pycache__"]); try reflexivity.
  intros Hin. apply list_elem_of_In in Hin. simpl in Hin.
  repeat destruct Hin as [Hin | Hin]; try discriminate Hin. done.
Defined.

(** ** What the repository-root lookup returns *)

Lemma repo_root_loop_inv (w : World) (n : nat) :
  forall p,
    match repo_root_loop w n p with
    | Ok s =>
        exists i, i < n /\ s = path_str (ancestor i p) /\
          has_git w (ancestor i p) = true /\
          forall j, j < i -> has_git w (ancestor j p) = false
    | Raise e =>
        e = Exception "Unable to detect repository root." /\
        forall i, i < n -> has_git w (ancestor i p) = false
    end.
Proof.
  induction n as [|n IH]; intros p.
  - cbn [repo_root_loop]. split; [done |]. intros i Hi. lia.
  - cbn [repo_root_loop]. destruct (has_git w p) eqn:Hgit.
    + exists 0. repeat split; [lia | done |]. intros j Hj. lia.
    + specialize (IH (parent p)).
      destruct (repo_root_loop w n (parent p)) as [s | e].
      * destruct IH as (i & Hi & -> & Hfound & Hfirst).
        exists (S i). rewrite ancestor_S. repeat split; [lia | done |].
        intros [|j] Hj; [done |]. rewrite ancestor_S. apply Hfirst. lia.
      * destruct IH as [-> Hnone]. split; [done |].
        intros [|i] Hi; [done |]. rewrite ancestor_S. apply Hnone. lia.
Qed.

(** X5: whatever [_get_repo_root] returns is the text of one of the ten
    levels, that level has a [.git] and no level before it has one; and
    when it raises the exception of line 291, none of the ten levels has a
    [.git]. *)
Theorem repo_root_result (w : World) :
  (forall s, _get_repo_root w = Ok s ->
     exists i, i < 10 /\ s = path_str (ancestor i (cwd w)) /\
       has_git w (ancestor i (cwd w)) = true /\
       forall j, j < i -> has_git w (ancestor j (cwd w)) = false) /\
  (_get_repo_root w = Raise (Exception "Unable to detect repository root.") ->
   forall i, i < 10 -> has_git w (ancestor i (cwd w)) = false).
Proof.
  unfold _get_repo_root.
  pose proof (repo_root_loop_inv w 10 (cwd w)) as Hinv.
  destruct (repo_root_loop w 10 (cwd w)) as [s | e].
  - split; [| done]. by intros s' [= <-].
  - split; [done |]. intros _. by destruct Hinv.
Qed.

Lemma repo_root_result_witness :
  exists i, i < 10 /\ "/repo" = path_str (ancestor i (cwd sample_world)) /\
    has_git sample_world (ancestor i (cwd sample_world)) = true /\
    forall j, j < i -> has_git sample_world (ancestor j (cwd sample_world)) = false.
Proof.
  apply (proj1 (repo_root_result sample_world) "/repo"). reflexivity.
Defined.

Lemma parent_take (p : list string) : parent p = take (length p - 1) p.
Proof.
  unfold parent. rewrite removelast_firstn_len.
  by replace (Init.Nat.pred (length p)) with (length p - 1) by lia.
Qed.

Lemma ancestor_take (i : nat) :
  forall p, ancestor i p = take (length p - i) p.
Proof.
  induction i as [|i IH]; intros p.
  - cbn. by rewrite Nat.sub_0_r, firstn_all.
  - rewrite ancestor_S, IH, parent_take, length_take, take_take.
    f_equal. lia.
Qed.

(** X6: from a working directory fewer than ten levels below [/], the
    lookup reaches [/], so the bound plays no part: it raises exactly when
    no directory on the way up to [/] has a [.git]. *)
Theorem repo_root_shallow (w : World) :
  length (cwd w) < 10 ->
  _get_repo_root w = Raise (Exception "Unable to detect repository root.") <->
  forall q, q `prefix_of` cwd w -> has_git w q = false.
Proof.
  intros Hdepth. split.
  - intros Hraise q [k Hq].
    pose proof (repo_root_loop_inv w 10 (cwd w)) as Hnone.
    unfold _get_repo_root in Hraise. rewrite Hraise in Hnone.
    destruct Hnone as [_ Hnone].
    specialize (Hnone (length k)).
    rewrite ancestor_take, Hq, length_app in Hnone.
    replace (length q + length k - length k) with (length q) in Hnone by lia.
    rewrite take_app_length in Hnone. apply Hnone.
    rewrite Hq, length_app in Hdepth. lia.
  - intros Hnone. unfold _get_repo_root. apply repo_root_loop_none.
    intros i _. apply Hnone. rewrite ancestor_take. apply prefix_take.
Qed.

Lemma repo_root_shallow_witness :
  _get_repo_root no_tests_world =
    Raise (Exception "Unable to detect repository root.") <->
  forall q, q `prefix_of` cwd no_tests_world ->
    has_git no_tests_world q = false.
Proof.
  apply (repo_root_shallow no_tests_world). simpl. lia.
Defined.

(** ** Tested versions, whatever the configuration holds *)

Lemma not_ignored_sublist (ign : pyval) (vs kept : list string) :
  not_ignored ign vs = Ok kept -> kept `sublist_of` vs.
Proof.
  revert kept. induction vs as [|v vs IH]; intros kept.
  - intros [= <-]. done.
  - cbn [not_ignored]. destruct (py_in v ign) as [b|]; [| done].
    cbn [rbind]. destruct (not_ignored ign vs) as [rest|]; [| done].
    cbn [rbind]. intros [= <-]. specialize (IH rest eq_refl).
    destruct b; [by apply sublist_cons | by apply sublist_skip].
Qed.

Lemma ALL_VERSIONS_NoDup : NoDup ALL_VERSIONS.
Proof. apply (bool_decide_unpack _). vm_compute. exact I. Qed.

Lemma TESTED_VERSIONS_kept (config : gmap string pyval) (tested : list string) :
  TESTED_VERSIONS config = Ok tested ->
  exists kept, kept `sublist_of` ALL_VERSIONS /\ tested = sorted kept.
Proof.
  unfold TESTED_VERSIONS.
  destruct (IGNORED_VERSIONS config) as [ign|]; [| done]. cbn [rbind].
  destruct (not_ignored ign ALL_VERSIONS) as [kept|] eqn:Hkept; [| done].
  cbn [rbind]. intros [= <-]. exists kept.
  split; [by eapply not_ignored_sublist | done].
Qed.

(** X7: whatever kind of value [ignored_versions] holds, a list of tested
    versions that is computed at all has only versions of [ALL_VERSIONS],
    each at most once, in ascending string order. *)
Theorem tested_versions_within_all (config : gmap string pyval)
    (tested : list string) :
  TESTED_VERSIONS config = Ok tested ->
  (forall v, v ∈ tested -> v ∈ ALL_VERSIONS) /\
  NoDup tested /\
  StronglySorted str_le tested /\
  length tested <= length ALL_VERSIONS.
Proof.
  intros Htested.
  apply TESTED_VERSIONS_kept in Htested as (kept & Hsub & ->).
  repeat split.
  - intros v Hv. rewrite sorted_Permutation in Hv.
    by eapply elem_of_sublist.
  - rewrite sorted_Permutation.
    eapply sublist_NoDup; [apply ALL_VERSIONS_NoDup | done].
  - apply sorted_Sorted.
  - rewrite sorted_Permutation. by apply sublist_length.
Qed.

Lemma tested_versions_within_all_witness :
  (forall v, v ∈ ["2.7"; "3.9"] -> v ∈ ALL_VERSIONS) /\
  NoDup ["2.7"; "3.9"] /\
  StronglySorted str_le ["2.7"; "3.9"] /\
  length ["2.7"; "3.9"] <= length ALL_VERSIONS.
Proof.
  apply (tested_versions_within_all
           (<["ignored_versions" := VStr "3.8, 3.10, 3.11, 3.12, 3.13"]>
              TEST_CONFIG_defaults)).
  vm_compute. reflexivity.
Defined.

Lemma not_ignored_ok (ign : pyval) (vs : list string) :
  (forall v, exists b, py_in v ign = Ok b) ->
  exists kept, not_ignored ign vs = Ok kept.
Proof.
  intros Hin. induction vs as [|v vs [rest IH]]; [by eexists |].
  cbn [not_ignored]. destruct (Hin v) as [b ->]. rewrite IH.
  by eexists.
Qed.

(** X8: when [ignored_versions] is [None] or a boolean, computing the
    tested versions raises [TypeError], so the module does not load; when
    it is a list, a string or a dictionary, the computation returns a
    list. *)
Theorem tested_versions_type_error (config : gmap string pyval) (ign : pyval) :
  config !! "ignored_versions" = Some ign ->
  (ign = VNone \/ (exists b, ign = VBool b) ->
   TESTED_VERSIONS config = Raise TypeError) /\
  ((exists l, ign = VList l) \/ (exists s, ign = VStr s) \/
   (exists d, ign = VDict d) ->
   exists tested, TESTED_VERSIONS config = Ok tested).
Proof.
  intros Hign.
  unfold TESTED_VERSIONS, IGNORED_VERSIONS, getitem. rewrite Hign.
  cbn [rbind]. split.
  - intros [-> | [b ->]]; reflexivity.
  - intros Hkind.
    destruct (not_ignored_ok ign ALL_VERSIONS) as [kept ->]; [| by eexists].
    intros v. destruct Hkind as [[l ->] | [[s ->] | [d ->]]]; by eexists.
Qed.

Lemma tested_versions_type_error_witness :
  TESTED_VERSIONS (TEST_CONFIG (Some (<["ignored_versions" := VNone]> ∅))) =
    Raise TypeError /\
  exists tested,
    TESTED_VERSIONS (TEST_CONFIG (Some (<["ignored_versions" := VStr "2.7"]> ∅)))
      = Ok tested.
Proof.
  split.
  - apply (tested_versions_type_error _ VNone); [reflexivity |].
    left. reflexivity.
  - apply (tested_versions_type_error _ (VStr "2.7")); [reflexivity |].
    right. left. by eexists.
Defined.

(** X9: the linting version is the first tested version in string order,
    at most every other tested version; with no tested version left it is
    "3.10", which then is not a tested version. *)
Theorem linting_version_least (config : gmap string pyval)
    (tested : list string) :
  TESTED_VERSIONS config = Ok tested ->
  exists v,
    LINTING_VERSION config = Ok v /\
    (tested = [] -> v = "3.10") /\
    (tested <> [] -> v ∈ tested /\ forall u, u ∈ tested -> str_le v u).
Proof.
  intros Htested.
  assert (StronglySorted str_le tested) as Hsorted.
  { destruct (TESTED_VERSIONS_kept config tested Htested) as (kept & _ & ->).
    apply sorted_Sorted. }
  unfold LINTING_VERSION. rewrite Htested. cbn [rbind].
  destruct tested as [|v tested].
  - exists "3.10". by repeat split.
  - exists v. split; [done |]. split; [done |]. intros _.
    split; [apply list_elem_of_here |].
    intros u Hu. apply elem_of_cons in Hu as [-> | Hu].
    + by destruct (str_le_total v v).
    + apply StronglySorted_inv in Hsorted as [_ Hall].
      by eapply Forall_forall in Hall.
Qed.

Lemma linting_version_least_witness :
  exists v,
    LINTING_VERSION TEST_CONFIG_defaults = Ok v /\
    (["3.13"; "3.9"] = [] -> v = "3.10") /\
    (["3.13"; "3.9"] <> [] ->
     v ∈ ["3.13"; "3.9"] /\ forall u, u ∈ ["3.13"; "3.9"] -> str_le v u).
Proof.
  apply (linting_version_least TEST_CONFIG_defaults).
  vm_compute. reflexivity.
Defined.

(** ** The [py] session *)

(** X10: with a list of ignored versions, the [py] session of a version of
    [ALL_VERSIONS] that is not ignored runs the test task without a
    post-install hook, and the session of any other version is skipped
    with the message that names the version. *)
Theorem py_tests_only_tested_versions (str_of : pyval -> string) (w : World)
    (session : Session) (python : string) (ign : list string) :
  TEST_CONFIG (noxfile_config w) !! "ignored_versions" = Some (VList ign) ->
  (python ∈ ALL_VERSIONS -> python ∉ ign ->
   py str_of w session python =
     Ok (Tested (_session_tests str_of w session None))) /\
  (python ∈ ign \/ python ∉ ALL_VERSIONS ->
   py str_of w session python =
     Ok (Skipped ("SKIPPED: " +:+ python +:+
                  " tests are disabled for this sample."))).
Proof.
  intros Hign. unfold py. rewrite (TESTED_VERSIONS_list _ _ Hign).
  cbn [rbind]. split.
  - intros Hall Hnot. rewrite bool_decide_eq_true_2; [done |].
    rewrite sorted_Permutation. by apply list_elem_of_filter.
  - intros Hskip. rewrite bool_decide_eq_false_2; [done |].
    rewrite sorted_Permutation, list_elem_of_filter. tauto.
Qed.

Lemma py_tests_only_tested_versions_witness :
  py (fun _ => "") sample_world (session_exiting 0) "3.9" =
    Ok (Tested (_session_tests (fun _ => "") sample_world (session_exiting 0) None)) /\
  py (fun _ => "") sample_world (session_exiting 0) "3.12" =
    Ok (Skipped "SKIPPED: 3.12 tests are disabled for this sample.").
Proof.
  split.
  - apply (py_tests_only_tested_versions _ sample_world (session_exiting 0)
             "3.9" ["2.7"; "3.7"; "3.8"; "3.10"; "3.11"; "3.12"] eq_refl).
    + apply (bool_decide_unpack _). vm_compute. exact I.
    + apply (bool_decide_unpack _). vm_compute. exact I.
  - apply (py_tests_only_tested_versions _ sample_world (session_exiting 0)
             "3.12" ["2.7"; "3.7"; "3.8"; "3.10"; "3.11"; "3.12"] eq_refl).
    left. apply (bool_decide_unpack _). vm_compute. exact I.
Defined.

(** ** Where the errors of [get_pytest_env_vars] come from *)

Lemma update_from_items_error (items : list string) :
  forall ret e, update_from_items ret items = Raise e -> e = ValueError.
Proof.
  induction items as [|s items IH]; intros ret e; [done |].
  cbn [update_from_items]. unfold pair_of_item.
  destruct s as [|a [|b [|c s]]]; cbn [rbind]; try by intros [= <-].
  apply IH.
Qed.

Lemma update_from_items_keeps (items : list string) (k : string) :
  forall ret ret',
    update_from_items ret items = Ok ret' ->
    is_Some (ret !! k) -> is_Some (ret' !! k).
Proof.
  induction items as [|s items IH]; intros ret ret'.
  - by intros [= <-].
  - cbn [update_from_items]. destruct (pair_of_item s) as [kv|]; [| done].
    cbn [rbind]. intros Hrest Hk. apply (IH _ _ Hrest).
    rewrite lookup_insert_is_Some. destruct (decide (kv.1 = k)); auto.
Qed.

Lemma config_key_present (w : World) (k : string) :
  k ∈ recognized_keys ->
  exists v, TEST_CONFIG (noxfile_config w) !! k = Some v.
Proof. intros Hk. by apply TEST_CONFIG_recognized. Qed.

(** X11: a [KeyError] from [get_pytest_env_vars] is never about the
    configuration: it names the environment variable that
    [gcloud_project_env] asks for, and that variable is unset. *)
Theorem pytest_env_vars_key_error (w : World) (k : string) :
  get_pytest_env_vars w = Raise (KeyError k) ->
  TEST_CONFIG (noxfile_config w) !! "gcloud_project_env" = Some (VStr k) /\
  environ w !! k = None.
Proof.
  destruct (config_key_present w "gcloud_project_env") as [key Hkey].
  { unfold recognized_keys. set_solver. }
  destruct (config_key_present w "envs") as [envs Henvs].
  { unfold recognized_keys. set_solver. }
  unfold get_pytest_env_vars, getitem. rewrite Hkey, Henvs. cbn [rbind].
  destruct key as [| b | name | l | d]; cbn [environ_getitem rbind]; try done.
  destruct (environ w !! name) as [project|] eqn:Hname; cbn [rbind].
  - intros Hraise. exfalso.
    destruct envs as [| b | s | l | d]; cbn [update_from] in Hraise; try done;
      by apply update_from_items_error in Hraise.
  - by intros [= <-].
Qed.

Lemma pytest_env_vars_key_error_witness :
  TEST_CONFIG (noxfile_config world_without_project) !! "gcloud_project_env"
    = Some (VStr "GOOGLE_CLOUD_PROJECT") /\
  environ world_without_project !! "GOOGLE_CLOUD_PROJECT" = None.
Proof.
  apply (pytest_env_vars_key_error world_without_project). reflexivity.
Defined.

(** X12: whenever [get_pytest_env_vars] returns, the returned dictionary
    has both [GOOGLE_CLOUD_PROJECT] and [GCLOUD_PROJECT]; with a dictionary
    under [envs], its keys are these two and those of [envs]. *)
Theorem pytest_env_vars_keys (w : World) (ret : gmap string string) :
  get_pytest_env_vars w = Ok ret ->
  is_Some (ret !! "GOOGLE_CLOUD_PROJECT") /\
  is_Some (ret !! "GCLOUD_PROJECT") /\
  forall d, TEST_CONFIG (noxfile_config w) !! "envs" = Some (VDict d) ->
    dom ret = {[ "GOOGLE_CLOUD_PROJECT"; "GCLOUD_PROJECT" ]} ∪ dom d.
Proof.
  unfold get_pytest_env_vars, getitem.
  destruct (TEST_CONFIG (noxfile_config w) !! "gcloud_project_env")
    as [key|]; [| done]. cbn [rbind].
  destruct (environ_getitem w key) as [project|]; [| done]. cbn [rbind].
  destruct (TEST_CONFIG (noxfile_config w) !! "envs") as [envs|]; [| done].
  cbn [rbind].
  set (base := <["GCLOUD_PROJECT" := project]>
                 (<["GOOGLE_CLOUD_PROJECT" := project]> ∅)).
  assert (is_Some (base !! "GOOGLE_CLOUD_PROJECT")) as Hgcp by by eexists.
  assert (is_Some (base !! "GCLOUD_PROJECT")) as Hgp by by eexists.
  destruct envs as [| b | s | l | d]; cbn [update_from]; try done.
  - intros Hret. repeat split; [| | done];
      by eapply update_from_items_keeps.
  - intros Hret. repeat split; [| | done];
      by eapply update_from_items_keeps.
  - intros [= <-]. split; [| split].
    + rewrite dict_update_lookup. by destruct (d !! "GOOGLE_CLOUD_PROJECT").
    + rewrite dict_update_lookup. by destruct (d !! "GCLOUD_PROJECT").
    + intros d' [= <-]. rewrite dict_update_dom. unfold base.
      rewrite !dom_insert_L, dom_empty_L.
      apply set_eq. intros x. set_unfold. tauto.
Qed.

Lemma pytest_env_vars_keys_witness :
  is_Some ((<["GCLOUD_PROJECT" := "my-project"]>
              (<["GOOGLE_CLOUD_PROJECT" := "my-project"]> ∅)
            : gmap string string) !! "GOOGLE_CLOUD_PROJECT").
Proof.
  apply (pytest_env_vars_keys sample_world). vm_compute. reflexivity.
Defined.

(** ** What the test task needs in order to succeed *)

Lemma tbind_ok_inv {A B : Type} (t : task A) (k : A -> task B)
    (log : list event) (b : B) :
  tbind t k = (log, Ok b) ->
  exists l1 a l2, t = (l1, Ok a) /\ k a = (l2, Ok b) /\ log = l1 ++ l2.
Proof.
  destruct t as [l1 [a | e]]; cbn [tbind]; [| done].
  destruct (k a) as [l2 r] eqn:Hk. intros [= <- ->]. by exists l1, a, l2.
Qed.

Lemma lift_ok_inv {A : Type} (r : result A) (log : list event) (a : A) :
  lift r = (log, Ok a) -> r = Ok a /\ log = [].
Proof. unfold lift. by intros [= -> <-]. Qed.

Lemma load_fast_ok_inv (name : string) (v : option string) (s : string) :
  load_fast name v = Ok s -> v = Some s.
Proof. destruct v; [by intros [= ->] | done]. Qed.

Lemma open_file_ok_inv (w : World) (name text : string) :
  open_file w name = Ok text -> stat w [name] = Some (File text).
Proof.
  unfold open_file. destruct (stat w [name]) as [[t | es] |]; try done.
  by intros [= ->].
Qed.

Lemma path_exists_false (w : World) (rel : list string) :
  path_exists w rel = false -> stat w rel = None.
Proof. unfold path_exists. by destruct (stat w rel). Qed.

(** The facts behind a set-up that comes through. *)
Lemma session_tests_setup_ok_inv (str_of : pyval -> string) (w : World)
    (session : Session) (post_install : option (Session -> task unit))
    (log : list event) (args : list string) (env : gmap string string) :
  session_tests_setup str_of w session post_install = (log, Ok (args, env)) ->
  (exists text, stat w ["requirements.txt"] = Some (File text)) /\
  (stat w ["requirements-test.txt"] = None \/
   exists text, stat w ["requirements-test.txt"] = Some (File text)) /\
  (INSTALL_LIBRARY_FROM_SOURCE w = true -> exists r, _get_repo_root w = Ok r) /\
  args = PYTEST_COMMON_ARGS ++ posargs session ++
         concurrent_flags (file_text w "requirements.txt" +:+
                           file_text w "requirements-test.txt") /\
  get_pytest_env_vars w = Ok env.
Proof.
  unfold session_tests_setup. intros H.
  apply tbind_ok_inv in H as (? & pip_version & ? & _ & H & _).
  apply tbind_ok_inv in H as (? & [] & ? & _ & H & _).
  apply tbind_ok_inv in H as (? & packages & ? & Hreq & H & _).
  apply tbind_ok_inv in H as (? & packages' & ? & Hreqtest & H & _).
  apply tbind_ok_inv in H as (? & [] & ? & Hsource & H & _).
  apply tbind_ok_inv in H as (? & [] & ? & _ & H & _).
  apply tbind_ok_inv in H as (? & text & ? & Hload & H & _).
  apply lift_ok_inv in Hload as [Hload _]. apply load_fast_ok_inv in Hload.
  apply tbind_ok_inv in H as (? & env' & ? & Henv & H & _).
  apply lift_ok_inv in Henv as [Henv _].
  unfold tret in H. injection H as _ Hargs Hsame. subst env' packages'.
  (* the second block, which needs [packages] bound *)
  assert (exists req, stat w ["requirements.txt"] = Some (File req) /\
                      packages = Some req) as (req & Hstat & ->).
  { destruct (path_exists w ["requirements.txt"]) eqn:Hex.
    - apply tbind_ok_inv in Hreq as (? & req & ? & Hopen & Hreq & _).
      apply lift_ok_inv in Hopen as [Hopen _].
      apply open_file_ok_inv in Hopen.
      apply tbind_ok_inv in Hreq as (? & [] & ? & _ & Hreq & _).
      unfold tret in Hreq. injection Hreq as _ <-. by exists req.
    - unfold tret in Hreq. injection Hreq as _ <-.
      destruct (path_exists w ["requirements-test.txt"]).
      + apply tbind_ok_inv in Hreqtest as (? & ? & ? & _ & Hreqtest & _).
        apply tbind_ok_inv in Hreqtest as (? & ? & ? & Hold & _).
        by apply lift_ok_inv in Hold as [Hold _].
      + unfold tret in Hreqtest. discriminate Hreqtest. }
  assert (stat w ["requirements-test.txt"] = None /\ text = req \/
          exists t, stat w ["requirements-test.txt"] = Some (File t) /\
                    text = req +:+ t) as Htest.
  { destruct (path_exists w ["requirements-test.txt"]) eqn:Hex.
    - right.
      apply tbind_ok_inv in Hreqtest as (? & t & ? & Hopen & Hreqtest & _).
      apply lift_ok_inv in Hopen as [Hopen _].
      apply open_file_ok_inv in Hopen.
      apply tbind_ok_inv in Hreqtest as (? & old & ? & Hold & Hreqtest & _).
      apply lift_ok_inv in Hold as [[= <-] _].
      apply tbind_ok_inv in Hreqtest as (? & [] & ? & _ & Hreqtest & _).
      unfold tret in Hreqtest. injection Hreqtest as _ <-. by exists t.
    - left. apply path_exists_false in Hex.
      unfold tret in Hreqtest. by injection Hreqtest as _ <-. }
  split; [by exists req |]. split.
  { destruct Htest as [[? _] | (t & ? & _)]; [by left | right; by exists t]. }
  split.
  { intros Hflag. rewrite Hflag in Hsource.
    apply tbind_ok_inv in Hsource as (? & r & ? & Hroot & _).
    apply lift_ok_inv in Hroot as [Hroot _]. by exists r. }
  split; [| done].
  rewrite <- Hargs. unfold file_text, concurrent_flags. rewrite Hstat.
  destruct Htest as [[-> ->] | (t & -> & ->)].
  - rewrite append_nil_r. reflexivity.
  - reflexivity.
Qed.

Lemma outcome_tbind_ok_inv {A B : Type} (t : task A) (k : A -> task B) (b : B) :
  outcome (tbind t k) = Ok b ->
  exists log a, t = (log, Ok a) /\ outcome (k a) = Ok b.
Proof.
  destruct t as [log [a | e]]; cbn [tbind]; [| done].
  intros H. exists log, a. split; [done |].
  by destruct (k a).
Qed.

(** X13: in a directory where tests are found, the test task can only
    succeed if [requirements.txt] is a regular file, the environment for
    the test process could be computed, the repository root was found when
    the library is to be installed from source, and the test runner,
    started with the arguments of line 255, exited with 0 or 5. *)
Theorem test_task_success_needs (str_of : pyval -> string) (w : World)
    (session : Session) (post_install : option (Session -> task unit)) :
  tests_present w = true ->
  outcome (_session_tests str_of w session post_install) = Ok tt ->
  (exists text, stat w ["requirements.txt"] = Some (File text)) /\
  (exists env, get_pytest_env_vars w = Ok env) /\
  (INSTALL_LIBRARY_FROM_SOURCE w = true -> exists r, _get_repo_root w = Ok r) /\
  (let args := PYTEST_COMMON_ARGS ++ posargs session ++
               concurrent_flags (file_text w "requirements.txt" +:+
                                 file_text w "requirements-test.txt") in
   exit_status session "pytest" args = 0%Z \/
   exit_status session "pytest" args = 5%Z).
Proof.
  intros Hpresent Hok. unfold tests_present in Hpresent.
  apply negb_true_iff in Hpresent.
  unfold _session_tests in Hok. rewrite Hpresent in Hok.
  apply outcome_tbind_ok_inv in Hok as (log & [args env] & Hsetup & Hrun).
  apply session_tests_setup_ok_inv in Hsetup
    as (Hreq & _ & Hroot & -> & Henv).
  split; [done |]. split; [by exists env |]. split; [done |].
  cbn zeta. unfold session_run, outcome in Hrun. cbn [fst snd] in Hrun.
  destruct (bool_decide _) eqn:Hcode in Hrun; [| done].
  apply bool_decide_eq_true in Hcode.
  apply elem_of_cons in Hcode as [-> | Hcode]; [by left |].
  apply list_elem_of_singleton in Hcode as ->. by right.
Qed.

Lemma test_task_success_needs_witness :
  (exists text, stat sample_world ["requirements.txt"] = Some (File text)) /\
  (exists env, get_pytest_env_vars sample_world = Ok env) /\
  (INSTALL_LIBRARY_FROM_SOURCE sample_world = true ->
   exists r, _get_repo_root sample_world = Ok r) /\
  (let args := PYTEST_COMMON_ARGS ++ posargs (session_exiting 5) ++
               concurrent_flags (file_text sample_world "requirements.txt" +:+
                                 file_text sample_world "requirements-test.txt") in
   exit_status (session_exiting 5) "pytest" args = 0%Z \/
   exit_status (session_exiting 5) "pytest" args = 5%Z).
Proof.
  apply (test_task_success_needs (fun _ => "") sample_world
           (session_exiting 5) None).
  - reflexivity.
  - vm_compute. reflexivity.
Defined.

(** X14: when the set-up comes through, the test runner gets the common
    arguments, then the positional arguments of the session, then the
    flags of the plugin found in the text of [requirements.txt] followed
    directly by that of [requirements-test.txt]; its environment is the
    result of [get_pytest_env_vars]. *)
Theorem pytest_arguments (str_of : pyval -> string) (w : World)
    (session : Session) (post_install : option (Session -> task unit))
    (log : list event) (args : list string) (env : gmap string string) :
  session_tests_setup str_of w session post_install = (log, Ok (args, env)) ->
  args = PYTEST_COMMON_ARGS ++ posargs session ++
         concurrent_flags (file_text w "requirements.txt" +:+
                           file_text w "requirements-test.txt") /\
  get_pytest_env_vars w = Ok env.
Proof.
  intros Hsetup.
  by apply session_tests_setup_ok_inv in Hsetup as (_ & _ & _ & ? & ?).
Qed.

Lemma pytest_arguments_witness :
  ["--junitxml=sponge_log.xml"; "-n"; "auto"] =
    PYTEST_COMMON_ARGS ++ posargs (session_exiting 0) ++
    concurrent_flags (file_text sample_world "requirements.txt" +:+
                      file_text sample_world "requirements-test.txt") /\
  get_pytest_env_vars sample_world =
    Ok (<["GCLOUD_PROJECT" := "my-project"]>
          (<["GOOGLE_CLOUD_PROJECT" := "my-project"]> ∅)).
Proof.
  apply (pytest_arguments (fun _ => "") sample_world (session_exiting 0) None
           [Install ["--upgrade"; "pip"];
            Install ["-r"; "requirements.txt"; "--only-binary"; ":all"]]).
  vm_compute. reflexivity.
Defined.

(** The two texts are joined without a separator, so a plugin name can
    come about across the boundary of the files. *)
Example concurrent_flags_across_files :
  concurrent_flags ("flask" +:+ "pytest-xdist") = ["-n"; "auto"] /\
  concurrent_flags ("mypytest-x" +:+ "dist==1.0") = ["-n"; "auto"] /\
  concurrent_flags ("pytest-xdist pytest-parallel") =
    ["--workers"; "auto"; "--tests-per-worker"; "auto"].
Proof. repeat split; reflexivity. Qed.

(** ** The order of the tool invocations *)

Lemma trace_tbind_Forall {A B : Type} (P : event -> Prop) (t : task A)
    (k : A -> task B) :
  Forall P (trace t) -> (forall a, Forall P (trace (k a))) ->
  Forall P (trace (tbind t k)).
Proof.
  intros Ht Hk. destruct t as [log [a | e]]; cbn [tbind]; [| done].
  specialize (Hk a). destruct (k a) as [log' r].
  apply Forall_app. by split.
Qed.

Lemma trace_lift {A : Type} (P : event -> Prop) (r : result A) :
  Forall P (trace (lift r)).
Proof. constructor. Qed.

Lemma trace_tret {A : Type} (P : event -> Prop) (a : A) :
  Forall P (trace (tret a)).
Proof. constructor. Qed.

Lemma trace_session_install (session : Session) (args : list string) :
  Forall (fun e => is_install e = true) (trace (session_install session args)).
Proof. by repeat constructor. Qed.

Lemma session_tests_setup_installs (str_of : pyval -> string) (w : World)
    (session : Session) :
  Forall (fun e => is_install e = true)
    (trace (session_tests_setup str_of w session None)).
Proof.
  unfold session_tests_setup.
  repeat first
    [ apply trace_lift
    | apply trace_tret
    | apply trace_session_install
    | apply trace_tbind_Forall; [| intros ?]
    | match goal with
      | |- context [if ?b then _ else _] => destruct b
      end ].
Qed.

(** X15: without a post-install hook the test task does nothing but print
    its message, or install packages and then, as the last thing, start
    [pytest] with the success codes 0 and 5. *)
Theorem test_task_trace_shape (str_of : pyval -> string) (w : World)
    (session : Session) :
  trace (_session_tests str_of w session None) =
    [Print "No tests found, skipping directory."] \/
  exists installs,
    Forall (fun e => is_install e = true) installs /\
    (trace (_session_tests str_of w session None) = installs \/
     exists args env,
       trace (_session_tests str_of w session None) =
         installs ++ [Run "pytest" args [0; 5]%Z env]).
Proof.
  unfold _session_tests.
  destruct (Nat.eqb (length (test_list w)) 0); [by left |]. right.
  pose proof (session_tests_setup_installs str_of w session) as Hinstalls.
  destruct (session_tests_setup str_of w session None) as [log [[args env] | e]].
  - exists log. split; [done |]. right. by exists args, env.
  - exists log. split; [done |]. by left.
Qed.

Lemma tbind_lift_ok {A B : Type} (a : A) (k : A -> task B) :
  tbind (lift (Ok a)) k = k a.
Proof. unfold lift, tbind. by destruct (k a). Qed.

Lemma tbind_raise {A B : Type} (log : list event) (e : exn) (k : A -> task B) :
  tbind (log, Raise e) k = (log, Raise e).
Proof. reflexivity. Qed.

Lemma trace_tbind {A B : Type} (t : task A) (k : A -> task B) :
  trace (tbind t k) =
    trace t ++ match outcome t with
               | Ok a => trace (k a)
               | Raise _ => []
               end.
Proof.
  destruct t as [log [a | e]]; cbn [tbind trace outcome fst snd].
  - by destruct (k a).
  - by rewrite app_nil_r.
Qed.

(** X16: once tests are found, the first thing the task does is the
    installation of pip, pinned to the configured version when that is
    truthy and upgraded otherwise; when this installation fails the task
    stops there with [CommandFailed]. *)
Theorem test_task_pip_first (str_of : pyval -> string) (w : World)
    (session : Session) (post_install : option (Session -> task unit)) :
  tests_present w = true ->
  exists pip_version args rest,
    TEST_CONFIG (noxfile_config w) !! "pip_version_override" = Some pip_version /\
    args = (if truthy pip_version
            then ["pip==" +:+ str_of pip_version]
            else ["--upgrade"; "pip"]) /\
    trace (_session_tests str_of w session post_install) = Install args :: rest /\
    (install_fails session args = true ->
     _session_tests str_of w session post_install =
       ([Install args], Raise CommandFailed)).
Proof.
  intros Hpresent. unfold tests_present in Hpresent.
  apply negb_true_iff in Hpresent.
  destruct (config_key_present w "pip_version_override") as [v Hv].
  { unfold recognized_keys. set_solver. }
  unfold _session_tests, session_tests_setup, getitem.
  rewrite Hpresent, Hv, tbind_lift_ok.
  set (args := if truthy v then ["pip==" +:+ str_of v] else ["--upgrade"; "pip"]).
  assert ((if truthy v
           then session_install session ["pip==" +:+ str_of v]
           else session_install session ["--upgrade"; "pip"])
          = session_install session args) as ->.
  { unfold args. by destruct (truthy v). }
  exists v, args. eexists. split; [done |]. split; [done |]. split.
  - rewrite !trace_tbind. reflexivity.
  - intros Hfails. unfold session_install. rewrite Hfails.
    by rewrite !tbind_raise.
Qed.

Lemma test_task_pip_first_witness :
  exists pip_version args rest,
    TEST_CONFIG (noxfile_config sample_world) !! "pip_version_override"
      = Some pip_version /\
    args = (if truthy pip_version
            then ["pip==" +:+ (fun _ : pyval => "") pip_version]
            else ["--upgrade"; "pip"]) /\
    trace (_session_tests (fun _ => "") sample_world (session_exiting 0) None)
      = Install args :: rest /\
    (install_fails (session_exiting 0) args = true ->
     _session_tests (fun _ => "") sample_world (session_exiting 0) None =
       ([Install args], Raise CommandFailed)).
Proof.
  apply (test_task_pip_first (fun _ => "") sample_world (session_exiting 0) None).
  reflexivity.
Defined.

Lemma elem_of_trace_tbind {A B : Type} (e : event) (t : task A)
    (k : A -> task B) :
  e ∈ trace (tbind t k) ->
  e ∈ trace t \/ exists log a, t = (log, Ok a) /\ e ∈ trace (k a).
Proof.
  rewrite trace_tbind. destruct t as [log [a | err]]; cbn [trace outcome fst snd].
  - intros Hin. apply elem_of_app in Hin as [Hin | Hin]; [by left |].
    right. by exists log, a.
  - rewrite app_nil_r. by left.
Qed.

Lemma elem_of_trace_lift {A : Type} (e : event) (r : result A) :
  e ∈ trace (lift r) -> False.
Proof. apply elem_of_nil. Qed.

Lemma elem_of_trace_tret {A : Type} (e : event) (a : A) :
  e ∈ trace (tret a) -> False.
Proof. apply elem_of_nil. Qed.

Lemma elem_of_trace_install (e : event) (session : Session)
    (args : list string) :
  e ∈ trace (session_install session args) -> e = Install args.
Proof. apply list_elem_of_singleton. Qed.

Lemma elem_of_trace_run (e : event) (session : Session) (cmd : string)
    (args : list string) (codes : list Z) (env : gmap string string) :
  e ∈ trace (session_run session cmd args codes env) ->
  e = Run cmd args codes env.
Proof. apply list_elem_of_singleton. Qed.

(** Splits a hypothesis on an event of a composed task into the steps the
    event can come from, and drops the steps that log nothing. *)
Ltac trace_cases H :=
  repeat first
    [ apply elem_of_trace_lift in H; destruct H
    | apply elem_of_trace_tret in H; destruct H
    | apply elem_of_trace_install in H
    | apply elem_of_trace_run in H
    | let l := fresh "log" in
      let a := fresh "a" in
      let Heq := fresh "Hstep" in
      apply elem_of_trace_tbind in H as [H | (l & a & Heq & H)]
    | match type of H with
      | _ ∈ trace (if ?b then _ else _) => destruct b eqn:?
      end ].

(** X17: without a post-install hook, [requirements.txt] is installed
    with [--use-pep517] only when there is no [constraints.txt] and the
    text of the file mentions [pyspark]. *)
Theorem test_task_pep517_only_for_pyspark (str_of : pyval -> string)
    (w : World) (session : Session) :
  Install ["-r"; "requirements.txt"; "--use-pep517"]
    ∈ trace (_session_tests str_of w session None) ->
  path_exists w ["constraints.txt"] = false /\
  str_contains "pyspark" (file_text w "requirements.txt") = true.
Proof.
  intros Hin. unfold _session_tests in Hin.
  destruct (Nat.eqb (length (test_list w)) 0).
  { apply list_elem_of_singleton in Hin. discriminate Hin. }
  unfold session_tests_setup in Hin.
  trace_cases Hin; try discriminate Hin.
  apply lift_ok_inv in Hstep1 as [Hopen _].
  apply open_file_ok_inv in Hopen.
  unfold file_text. rewrite Hopen. done.
Qed.

Lemma test_task_pep517_only_for_pyspark_witness :
  path_exists pyspark_world ["constraints.txt"] = false /\
  str_contains "pyspark" (file_text pyspark_world "requirements.txt") = true.
Proof.
  apply (test_task_pep517_only_for_pyspark (fun _ => "") pyspark_world
           (session_exiting 0)).
  apply list_elem_of_In. vm_compute. right. left. reflexivity.
Defined.

(** ** The [lint] session *)

Lemma local_import_names_cwd (w : World) (es : list (string * node)) :
  stat w [] = Some (Dir es) ->
  exists names, _determine_local_import_names w [] = Ok names.
Proof.
  intros Hstat.
  destruct (local_import_names_elem w [] es Hstat) as (names & Hnames & _).
  by exists names.
Qed.

(** X18: in a working directory that can be listed, [lint] installs
    flake8 and the import-order plugin, and the annotations plugin as well
    exactly when [enforce_type_hints] is truthy; it succeeds exactly when
    that installation succeeds and flake8, given the common arguments, the
    local import names joined by commas and the directory [.], exits with
    0. *)
Theorem lint_succeeds_iff (w : World) (session : Session)
    (names : list string) :
  _determine_local_import_names w [] = Ok names ->
  exists enforce,
    TEST_CONFIG (noxfile_config w) !! "enforce_type_hints" = Some enforce /\
    let packages :=
      ["flake8"; "flake8-import-order"] ++
      (if truthy enforce then ["flake8-annotations"] else []) in
    let args :=
      FLAKE8_COMMON_ARGS ++
      ["--application-import-names"; String.concat "," names; "."] in
    hd_error (trace (lint w session)) = Some (Install packages) /\
    (outcome (lint w session) = Ok tt <->
     install_fails session packages = false /\
     exit_status session "flake8" args = 0%Z).
Proof.
  intros Hnames.
  destruct (config_key_present w "enforce_type_hints") as [enforce Henf].
  { unfold recognized_keys. set_solver. }
  exists enforce. split; [done |]. cbn zeta.
  unfold lint, getitem. rewrite Henf, tbind_lift_ok, Hnames.
  set (packages := ["flake8"; "flake8-import-order"] ++
                   (if truthy enforce then ["flake8-annotations"] else [])).
  assert ((if negb (truthy enforce)
           then session_install session ["flake8"; "flake8-import-order"]
           else session_install session
                  ["flake8"; "flake8-import-order"; "flake8-annotations"])
          = session_install session packages) as ->.
  { unfold packages. by destruct (truthy enforce). }
  split; [by rewrite trace_tbind |].
  unfold session_install.
  destruct (install_fails session packages).
  - rewrite tbind_raise. split; [done | by intros [? _]].
  - cbn [tbind]. rewrite tbind_lift_ok.
    unfold session_run_default, session_run, outcome. cbn [snd].
    destruct (bool_decide _) eqn:Hcode.
    + apply bool_decide_eq_true, list_elem_of_singleton in Hcode.
      split; [done | done].
    + apply bool_decide_eq_false in Hcode.
      split; [done |]. intros [_ Hzero]. exfalso. apply Hcode.
      by apply list_elem_of_singleton.
Qed.

Lemma lint_succeeds_iff_witness :
  exists enforce,
    TEST_CONFIG (noxfile_config cache_dir_world) !! "enforce_type_hints"
      = Some enforce /\
    let packages :=
      ["flake8"; "flake8-import-order"] ++
      (if truthy enforce then ["flake8-annotations"] else []) in
    let args :=
      FLAKE8_COMMON_ARGS ++
      ["--application-import-names"; String.concat "," ["main"; "utils"]; "."] in
    hd_error (trace (lint cache_dir_world (session_exiting 0)))
      = Some (Install packages) /\
    (outcome (lint cache_dir_world (session_exiting 0)) = Ok tt <->
     install_fails (session_exiting 0) packages = false /\
     exit_status (session_exiting 0) "flake8" args = 0%Z).
Proof.
  apply (lint_succeeds_iff cache_dir_world (session_exiting 0) ["main"; "utils"]).
  reflexivity.
Defined.

(** ** The [blacken] session *)

Lemma str_endswith_spec (suffix s : string) :
  str_endswith suffix s = true <-> exists x, s = x +:+ suffix.
Proof.
  induction s as [|a s IH]; cbn [str_endswith].
  - rewrite orb_false_r, String.eqb_eq. split.
    + intros <-. by exists EmptyString.
    + intros [x Hx]. destruct x; [done |]. by rewrite append_cons in Hx.
  - rewrite orb_true_iff, String.eqb_eq, IH. split.
    + intros [<- | [x ->]]; [by exists EmptyString |]. by exists (String a x).
    + intros [x Hx]. destruct x as [|b x].
      * left. by rewrite append_nil_l in Hx.
      * right. rewrite append_cons in Hx. injection Hx as -> ->. by exists x.
Qed.

(** X19: [blacken] installs black and, when that succeeds, starts it on
    the entries of the working directory whose names end in [.py], and on
    no other; among them is every entry that [splitext] gives the
    extension [.py], the entries from which the linter takes module
    names. *)
Theorem blacken_files (w : World) (session : Session)
    (entries : list string) :
  listdir w [] = Ok entries ->
  install_fails session ["black"] = false ->
  exists files,
    trace (blacken w session) =
      [Install ["black"]; Run "black" files [0%Z] ∅] /\
    (forall name, name ∈ files <->
       name ∈ entries /\ exists x, name = x +:+ ".py") /\
    (forall name, name ∈ entries -> (splitext name).2 = ".py" ->
       name ∈ files).
Proof.
  intros Hlist Hinstall. unfold blacken.
  rewrite (session_install_ok _ _ Hinstall), Hlist.
  exists (List.filter (str_endswith ".py") entries).
  assert (forall name, name ∈ List.filter (str_endswith ".py") entries <->
            name ∈ entries /\ exists x, name = x +:+ ".py") as Hfiles.
  { intros name.
    by rewrite list_elem_of_In, filter_In, <- list_elem_of_In,
      str_endswith_spec. }
  split; [reflexivity |]. split; [done |].
  intros name Hin Hext. apply Hfiles. split; [done |].
  destruct (splitext name) as [b e] eqn:Hsplit. cbn [snd] in Hext. subst e.
  exists b. symmetry. by apply splitext_parts in Hsplit as [? _].
Qed.

Lemma blacken_files_witness :
  exists files,
    trace (blacken cache_dir_world (session_exiting 0)) =
      [Install ["black"]; Run "black" files [0%Z] ∅] /\
    (forall name, name ∈ files <->
       name ∈ ["main.py"; "utils"; "cache"; "__pycache__"] /\
       exists x, name = x +:+ ".py") /\
    (forall name, name ∈ ["main.py"; "utils"; "cache"; "__pycache__"] ->
       (splitext name).2 = ".py" -> name ∈ files).
Proof.
  apply (blacken_files cache_dir_world (session_exiting 0)); reflexivity.
Defined.

(** A file named [.py] is formatted, though it gives no module name. *)
Example blacken_hidden_py :
  str_endswith ".py" ".py" = true /\ splitext ".py" = (".py", "").
Proof. split; reflexivity. Qed.

(** ** The [readmegen] session *)

Lemma dirname_last (dir : list string) (name : string) :
  dirname (dir ++ [name]) = dir.
Proof. apply removelast_last. Qed.

(** X20: [readmegen] looks at the directory of its template only: two
    templates of one directory lead to the same installations and to the
    same run, on the [README.rst.in] of that directory. *)
Theorem readmegen_directory_only (w : World) (session : Session)
    (dir : list string) (name1 name2 : string) :
  readmegen w session (dir ++ [name1]) = readmegen w session (dir ++ [name2]) /\
  forall e, e ∈ trace (readmegen w session (dir ++ [name1])) ->
    is_run e = true ->
    exists script,
      e = Run "python" [script; rel_str (dir ++ ["README.rst.in"])] [0%Z] ∅.
Proof.
  unfold readmegen. rewrite !dirname_last. split; [reflexivity |].
  intros e Hin Hrun. trace_cases Hin; subst e; try discriminate Hrun.
  by eexists.
Qed.

Lemma readmegen_directory_only_witness :
  exists script,
    Run "python" ["/repo/scripts/readme-gen/readme_gen.py"; "api/README.rst.in"]
      [0%Z] ∅ =
    Run "python" [script; rel_str (["api"] ++ ["README.rst.in"])] [0%Z] ∅.
Proof.
  apply (proj2 (readmegen_directory_only readme_world (session_exiting 0)
                  ["api"] "README.rst.in" "index.rst.in")).
  - apply list_elem_of_In. vm_compute. right. right. left. reflexivity.
  - reflexivity.
Defined.

(** X21: when none of the ten levels has a [.git], [readmegen] still
    installs its packages but starts no command, and it does not
    succeed. *)
Theorem readmegen_without_repository (w : World) (session : Session)
    (path : list string) :
  (forall i, i < 10 -> has_git w (ancestor i (cwd w)) = false) ->
  hd_error (trace (readmegen w session path)) =
    Some (Install ["jinja2"; "pyyaml"]) /\
  List.filter is_run (trace (readmegen w session path)) = [] /\
  outcome (readmegen w session path) <> Ok tt /\
  ((forall args, install_fails session args = false) ->
   outcome (readmegen w session path) =
     Raise (Exception "Unable to detect repository root.")).
Proof.
  intros Hnone.
  assert (_get_repo_root w =
            Raise (Exception "Unable to detect repository root.")) as Hroot.
  { unfold _get_repo_root. by apply repo_root_loop_none. }
  unfold readmegen. rewrite Hroot. unfold session_install, lift.
  destruct (install_fails session ["jinja2"; "pyyaml"]) eqn:Hfirst.
  { rewrite tbind_raise. repeat split; try done.
    intros Hok. by rewrite Hok in Hfirst. }
  destruct (path_exists w (dirname path ++ ["requirements.txt"])).
  - destruct (install_fails session
                ["-r"; rel_str (dirname path ++ ["requirements.txt"])])
      eqn:Hsecond.
    + cbn. repeat split; try done. intros Hok. by rewrite Hok in Hsecond.
    + cbn. by repeat split.
  - cbn. by repeat split.
Qed.

Lemma readmegen_without_repository_witness :
  hd_error (trace (readmegen no_tests_world (session_exiting 0) ["README.rst.in"])) =
    Some (Install ["jinja2"; "pyyaml"]) /\
  List.filter is_run
    (trace (readmegen no_tests_world (session_exiting 0) ["README.rst.in"])) = [] /\
  outcome (readmegen no_tests_world (session_exiting 0) ["README.rst.in"])
    <> Ok tt /\
  ((forall args, install_fails (session_exiting 0) args = false) ->
   outcome (readmegen no_tests_world (session_exiting 0) ["README.rst.in"]) =
     Raise (Exception "Unable to detect repository root.")).
Proof.
  apply (readmegen_without_repository no_tests_world (session_exiting 0)).
  intros i Hi.
  do 10 (destruct i as [|i]; [reflexivity |]). lia.
Defined.

(** In a checked-out repository the template of a subdirectory is
    rendered after the requirements of that subdirectory are installed. *)
Example readmegen_sample :
  readmegen readme_world (session_exiting 0) ["api"; "README.rst.in"] =
    ([Install ["jinja2"; "pyyaml"];
      Install ["-r"; "api/requirements.txt"];
      Run "python" ["/repo/scripts/readme-gen/readme_gen.py"; "api/README.rst.in"]
        [0%Z] ∅],
     Ok tt).
Proof. vm_compute. reflexivity. Qed.

(** ** The keys of the configuration *)

(** X22: an override can add keys to the configuration and replace
    values, but it cannot take a key away: the keys of the configuration
    are the five of the defaults and those of the override, so reading a
    default key never raises [KeyError]. *)
Theorem config_keys_never_removed (imported : option (gmap string pyval)) :
  dom (TEST_CONFIG imported) =
    recognized_keys ∪ dom (TEST_CONFIG_OVERRIDE imported) /\
  forall k, k ∈ recognized_keys ->
    exists v, getitem (TEST_CONFIG imported) k = Ok v.
Proof.
  split.
  - unfold TEST_CONFIG. rewrite dict_update_dom, defaults_dom.
    apply (comm_L (∪)).
  - intros k Hk. destruct (TEST_CONFIG_recognized imported k Hk) as [v Hv].
    exists v. unfold getitem. by rewrite Hv.
Qed.

Lemma config_keys_never_removed_witness :
  exists v, getitem (TEST_CONFIG (Some (<["envs" := VNone]> ∅))) "envs" = Ok v.
Proof.
  apply (proj2 (config_keys_never_removed (Some (<["envs" := VNone]> ∅)))).
  apply (bool_decide_unpack _). vm_compute. exact I.
Defined.
